(** * Expense tracker: a shallow embedding of [main.py] and its store

    The program is a set of tool functions over one SQLite file holding two
    tables, [expenses] and [income].  Every tool opens a connection, runs one
    or two statements and commits.  The embedding keeps the store as an
    explicit value threaded through each tool (state passing), each table as
    the list of its rows in insertion order together with the AUTOINCREMENT
    counter that SQLite keeps in [sqlite_sequence].

    The [amount] columns are declared REAL.  The development is parametric in
    the type [real] of stored amounts and in its operations, so that every
    result that does not depend on laws of addition holds whatever the
    arithmetic is; the two results on sums state the laws they need. *)

From Stdlib Require Import ZArith List String Ascii Bool Lia.
From Stdlib Require Import Permutation Sorted DecimalString PrimFloat.
Import ListNotations.

Local Open Scope string_scope.
Local Open Scope Z_scope.

(** Decimal constants such as 0.1 stand for the nearest binary64 value, as
    they do in Python and in SQLite. *)
#[local] Set Warnings "-inexact-float".

(** ** Values *)

(** [str(n)] of a Python integer, as used by the f-strings of the messages. *)
Definition py_str (n : Z) : string := NilZero.string_of_int (Z.to_int n).

(** SQLite's [x BETWEEN lo AND hi] on TEXT values with the BINARY collation:
    [lo <= x AND x <= hi], compared byte by byte. *)
Definition sql_between (lo hi x : string) : bool :=
  String.leb lo x && String.leb x hi.

(** The dictionary returned by the tools that change the store. *)
Inductive reply : Type :=
| Ok (id : Z)                                (* {"status": "ok", "id": id} *)
| OkUpdated (id : Z) (updated_fields : nat)  (* ... "updated_fields": n *)
| OkDeleted (id : Z) (message : string)      (* ... "message": m *)
| Error (message : string).                  (* {"status": "error", "message": m} *)

(** ** Tables with an AUTOINCREMENT key *)

(** The largest value of a 64-bit rowid. *)
Definition MAX_ROWID : Z := 9223372036854775807.

Record table (row : Type) : Type := mkTable {
  rows : list row;      (* the rows, oldest first *)
  seq : Z               (* sqlite_sequence: the largest rowid ever given out *)
}.
Arguments mkTable {row} _ _.
Arguments rows {row} _.
Arguments seq {row} _.

Definition empty_table {row : Type} : table row := mkTable [] 0.

(** sqlite3 binds a Python integer as a signed 64-bit integer, and raises
    OverflowError, with this text, for one that does not fit. *)
Definition fits_int64 (i : Z) : bool :=
  (-9223372036854775808 <=? i) && (i <=? 9223372036854775807).

Definition overflow_message : string :=
  "Python int too large to convert to SQLite INTEGER".

(** What [c.execute("SELECT * FROM t WHERE id = ?", (i,))] and [fetchone()]
    come to: a row, no row, or an exception of the statement. *)
Inductive fetched (row : Type) : Type :=
| Row (r : row)
| NoRow
| Raised (message : string).
Arguments Row {row} _.
Arguments NoRow {row}.
Arguments Raised {row} _.

Section Table.
Context {row : Type}.
Variable id_of : row -> Z.

Definition ids (t : table row) : list Z := map id_of (rows t).

Definition largest_rowid (rs : list row) : Z :=
  fold_right (fun r m => Z.max (id_of r) m) 0 rs.

(** [INSERT INTO t(cols) VALUES ...] without an explicit id.  AUTOINCREMENT
    takes one more than the largest rowid the table ever held, and the
    statement fails (SQLITE_FULL) once the largest rowid has been used. *)
Definition sql_insert (mk : Z -> row) (t : table row) : option (Z * table row) :=
  let last := Z.max (seq t) (largest_rowid (rows t)) in
  if MAX_ROWID <=? last then None
  else Some (last + 1, mkTable (rows t ++ [mk (last + 1)]) (last + 1)).

(** The first row of the table whose identifier is [i]. *)
Definition select_by_id (i : Z) (t : table row) : option row :=
  find (fun r => id_of r =? i) (rows t).

(** [SELECT * FROM t WHERE id = ?] with the parameter [i], followed by
    [fetchone()].  The rowid of a row is a 64-bit integer, so a parameter that
    does not fit is never the identifier of a row: the statement that finds
    no row is told from the one whose parameter cannot be bound. *)
Definition fetch_by_id (i : Z) (t : table row) : fetched row :=
  match select_by_id i t with
  | Some r => Row r
  | None => if fits_int64 i then NoRow else Raised overflow_message
  end.

(** The same statement in the order in which sqlite3 runs it, the parameter
    bound before the table is read; [fetch_by_id_bind_first] below shows that
    the two agree on every table whose rowids are 64-bit integers, and
    [reachable_rowids_fit] that the tables of the program are such. *)
Definition bind_then_select (i : Z) (t : table row) : fetched row :=
  if fits_int64 i then
    match select_by_id i t with
    | Some r => Row r
    | None => NoRow
    end
  else Raised overflow_message.

Definition rowids_fit (t : table row) : Prop :=
  Forall (fun n => fits_int64 n = true) (ids t).

(** [UPDATE t SET ... WHERE id = ?]. *)
Definition sql_update (i : Z) (set : row -> row) (t : table row) : table row :=
  mkTable (map (fun r => if id_of r =? i then set r else r) (rows t)) (seq t).

(** [DELETE FROM t WHERE cond]. *)
Definition sql_delete (cond : row -> bool) (t : table row) : table row :=
  mkTable (filter (fun r => negb (cond r)) (rows t)) (seq t).
End Table.

(** ** Sorting for ORDER BY *)

Section OrderBy.
Context {A : Type}.
Variable before : A -> A -> bool.

Fixpoint place (x : A) (l : list A) : list A :=
  match l with
  | [] => [x]
  | y :: l' => if before x y then x :: l else y :: place x l'
  end.

Definition order_by (l : list A) : list A := fold_right place [] l.
End OrderBy.

(** ** The tools *)

Section Tracker.
(** Stored amounts (REAL) and the operations the program uses on them:
    the literal [0], SQL's [SUM], Python's [-], and the order of
    [ORDER BY total_amount]. *)
Context {real : Type}.
Variable rzero : real.
Variable radd rsub : real -> real -> real.
Variable rleb : real -> real -> bool.

Record expense_row : Type := mkExpense {
  e_id : Z;
  e_date : string;
  e_amount : real;
  e_category : string;
  e_subcategory : string;
  e_note : string
}.

Record income_row : Type := mkIncome {
  i_id : Z;
  i_date : string;
  i_amount : real;
  i_source : string;
  i_note : string
}.

(** The database file.  [CREATE TABLE IF NOT EXISTS] leaves an existing
    table alone, so a file without tables is the store of two empty ones. *)
Record store : Type := mkStore {
  expenses : table expense_row;
  income : table income_row
}.

Definition empty_store : store := mkStore empty_table empty_table.

(** [init_db]: after the CREATE statements, the write test.  OR IGNORE
    skips a row that breaks a constraint, which this row cannot; a table
    without room is an error.  An exception leaves the [with] block without
    a commit and is raised again: [None]. *)
Definition init_db (db : store) : option store :=
  match sql_insert e_id
          (fun n => mkExpense n "2000-01-01" rzero "test" "" "")
          (expenses db) with
  | None => None
  | Some (_, t) =>
      Some (mkStore (sql_delete (fun r => e_category r =? "test")%string t)
                    (income db))
  end.

(** *** Expenses *)

(** A parameter left out of the call takes its default. *)
Definition arg_default (d : string) (a : option string) : string :=
  match a with Some v => v | None => d end.

(** The failure that depends on the store is that of the insert; its text
    has no "readonly" in it, so the tool answers with the second message.
    Failures of the file system are not part of the store. *)
Definition add_expense (date : string) (amount : real) (category : string)
    (subcategory note : option string) (db : store) : reply * store :=
  match sql_insert e_id
          (fun n => mkExpense n date amount category
                      (arg_default "" subcategory) (arg_default "" note))
          (expenses db) with
  | Some (expense_id, t) => (Ok expense_id, mkStore t (income db))
  | None => (Error "Database error: database or disk is full", db)
  end.

(** One element of [updates] with its element of [params]. *)
Inductive expense_update : Type :=
| SetDate (v : string)
| SetAmount (v : real)
| SetCategory (v : string)
| SetSubcategory (v : string)
| SetNote (v : string).

Definition set_expense (u : expense_update) (r : expense_row) : expense_row :=
  match u with
  | SetDate v =>
      mkExpense (e_id r) v (e_amount r) (e_category r) (e_subcategory r) (e_note r)
  | SetAmount v =>
      mkExpense (e_id r) (e_date r) v (e_category r) (e_subcategory r) (e_note r)
  | SetCategory v =>
      mkExpense (e_id r) (e_date r) (e_amount r) v (e_subcategory r) (e_note r)
  | SetSubcategory v =>
      mkExpense (e_id r) (e_date r) (e_amount r) (e_category r) v (e_note r)
  | SetNote v =>
      mkExpense (e_id r) (e_date r) (e_amount r) (e_category r) (e_subcategory r) v
  end.

(** [if x is not None: updates.append(...)]. *)
Definition supplied {V U : Type} (f : V -> U) (a : option V) : list U :=
  match a with Some v => [f v] | None => [] end.

Definition expense_updates (date : option string) (amount : option real)
    (category subcategory note : option string) : list expense_update :=
  supplied SetDate date ++ supplied SetAmount amount
    ++ supplied SetCategory category ++ supplied SetSubcategory subcategory
    ++ supplied SetNote note.

(** The SET clause: the assignments applied from left to right. *)
Definition apply_updates {R U : Type} (set : U -> R -> R) (us : list U) (r : R) : R :=
  fold_left (fun acc u => set u acc) us r.

Definition edit_expense (expense_id : Z) (date : option string)
    (amount : option real) (category subcategory note : option string)
    (db : store) : reply * store :=
  match fetch_by_id e_id expense_id (expenses db) with
  | Raised e => (Error ("Error editing expense: " ++ e), db)
  | NoRow =>
      (Error ("Expense with id " ++ py_str expense_id ++ " not found"), db)
  | Row _ =>
      let updates := expense_updates date amount category subcategory note in
      match updates with
      | [] => (Error "No fields to update", db)
      | _ :: _ =>
          (OkUpdated expense_id (List.length updates),
           mkStore (sql_update e_id expense_id
                      (apply_updates set_expense updates) (expenses db))
                   (income db))
      end
  end.

Definition delete_expense (expense_id : Z) (db : store) : reply * store :=
  match fetch_by_id e_id expense_id (expenses db) with
  | Raised e => (Error ("Error deleting expense: " ++ e), db)
  | NoRow =>
      (Error ("Expense with id " ++ py_str expense_id ++ " not found"), db)
  | Row _ =>
      (OkDeleted expense_id "Expense deleted successfully",
       mkStore (sql_delete (fun r => e_id r =? expense_id) (expenses db))
               (income db))
  end.

(** [ORDER BY date DESC, id DESC]: does [r1] come no later than [r2]? *)
Definition date_id_desc (d1 : string) (n1 : Z) (d2 : string) (n2 : Z) : bool :=
  match String.compare d1 d2 with
  | Gt => true
  | Lt => false
  | Eq => n2 <=? n1
  end.

Definition expense_before (r1 r2 : expense_row) : bool :=
  date_id_desc (e_date r1) (e_id r1) (e_date r2) (e_id r2).

Definition list_expenses (start_date end_date : string) (db : store)
    : list expense_row :=
  order_by expense_before
    (filter (fun r => sql_between start_date end_date (e_date r))
            (rows (expenses db))).
(** *** Income *)

Definition add_income (date : string) (amount : real) (source : string)
    (note : option string) (db : store) : reply * store :=
  match sql_insert i_id
          (fun n => mkIncome n date amount source (arg_default "" note))
          (income db) with
  | Some (income_id, t) => (Ok income_id, mkStore (expenses db) t)
  | None => (Error "Database error: database or disk is full", db)
  end.

Definition income_before (r1 r2 : income_row) : bool :=
  date_id_desc (i_date r1) (i_id r1) (i_date r2) (i_id r2).

Definition list_income (start_date end_date : string) (db : store)
    : list income_row :=
  order_by income_before
    (filter (fun r => sql_between start_date end_date (i_date r))
            (rows (income db))).

Inductive income_update : Type :=
| SetIDate (v : string)
| SetIAmount (v : real)
| SetISource (v : string)
| SetINote (v : string).

Definition set_income (u : income_update) (r : income_row) : income_row :=
  match u with
  | SetIDate v => mkIncome (i_id r) v (i_amount r) (i_source r) (i_note r)
  | SetIAmount v => mkIncome (i_id r) (i_date r) v (i_source r) (i_note r)
  | SetISource v => mkIncome (i_id r) (i_date r) (i_amount r) v (i_note r)
  | SetINote v => mkIncome (i_id r) (i_date r) (i_amount r) (i_source r) v
  end.

Definition income_updates (date : option string) (amount : option real)
    (source note : option string) : list income_update :=
  supplied SetIDate date ++ supplied SetIAmount amount
    ++ supplied SetISource source ++ supplied SetINote note.

Definition edit_income (income_id : Z) (date : option string)
    (amount : option real) (source note : option string)
    (db : store) : reply * store :=
  match fetch_by_id i_id income_id (income db) with
  | Raised e => (Error ("Error editing income: " ++ e), db)
  | NoRow =>
      (Error ("Income with id " ++ py_str income_id ++ " not found"), db)
  | Row _ =>
      let updates := income_updates date amount source note in
      match updates with
      | [] => (Error "No fields to update", db)
      | _ :: _ =>
          (OkUpdated income_id (List.length updates),
           mkStore (expenses db)
                   (sql_update i_id income_id
                      (apply_updates set_income updates) (income db)))
      end
  end.

Definition delete_income (income_id : Z) (db : store) : reply * store :=
  match fetch_by_id i_id income_id (income db) with
  | Raised e => (Error ("Error deleting income: " ++ e), db)
  | NoRow =>
      (Error ("Income with id " ++ py_str income_id ++ " not found"), db)
  | Row _ =>
      (OkDeleted income_id "Income deleted successfully",
       mkStore (expenses db)
               (sql_delete (fun r => i_id r =? income_id) (income db)))
  end.

(** *** Analysis *)

(** [SELECT SUM(amount) ...]: NULL over no row, else the amounts added in
    the order of the scan. *)
Definition sql_sum (xs : list real) : option real :=
  match xs with
  | [] => None
  | x :: xs' => Some (fold_left radd xs' x)
  end.

(** [result[0] if result[0] is not None else 0]. *)
Definition or_zero (v : option real) : real :=
  match v with Some x => x | None => rzero end.

Record balance : Type := mkBalance {
  total_income : real;
  total_expenses : real;
  balance_of : real;       (* the key "balance" *)
  start_date_of : string;  (* the key "start_date" *)
  end_date_of : string     (* the key "end_date" *)
}.

Definition get_balance (start_date end_date : string) (db : store) : balance :=
  let total_expenses :=
    or_zero (sql_sum (map e_amount
      (filter (fun r => sql_between start_date end_date (e_date r))
              (rows (expenses db))))) in
  let total_income :=
    or_zero (sql_sum (map i_amount
      (filter (fun r => sql_between start_date end_date (i_date r))
              (rows (income db))))) in
  mkBalance total_income total_expenses (rsub total_income total_expenses)
            start_date end_date.

(** One row of the result of [summarize]. *)
Record summary : Type := mkSummary {
  s_category : string;
  s_total_amount : real;
  s_count : nat
}.

(** [GROUP BY category] with [SUM(amount)] and [COUNT( * )]: the groups are
    kept in increasing order of category, each row is added to its group
    in the order of the scan. *)
Fixpoint group_add (r : expense_row) (gs : list summary) : list summary :=
  match gs with
  | [] => [mkSummary (e_category r) (e_amount r) 1]
  | g :: gs' =>
      match String.compare (e_category r) (s_category g) with
      | Eq => mkSummary (s_category g)
                (radd (s_total_amount g) (e_amount r)) (S (s_count g)) :: gs'
      | Lt => mkSummary (e_category r) (e_amount r) 1 :: gs
      | Gt => g :: group_add r gs'
      end
  end.

Definition group_by_category (rs : list expense_row) : list summary :=
  fold_left (fun gs r => group_add r gs) rs [].

(** [ORDER BY total_amount DESC]; rows with equal totals keep the order of
    the groups, which SQL leaves open. *)
Definition total_desc (g1 g2 : summary) : bool :=
  rleb (s_total_amount g2) (s_total_amount g1).

(** The truth value of a Python string: false for the empty one. *)
Definition truthy (c : string) : bool := negb (c =? "")%string.

Definition summarize (start_date end_date : string) (category : option string)
    (db : store) : list summary :=
  let in_range := fun r => sql_between start_date end_date (e_date r) in
  let where_ :=
    match category with
    | None => in_range
    | Some c =>
        if truthy c
        then fun r => in_range r && (e_category r =? c)%string
        else in_range
    end in
  order_by total_desc (group_by_category (filter where_ (rows (expenses db)))).

(** *** Sequences of calls *)

(** The calls that can change the store: a start of the process, which
    runs [init_db], and the six writing tools. *)
Inductive call : Type :=
| Start
| AddExpense (date : string) (amount : real) (category : string)
    (subcategory note : option string)
| EditExpense (expense_id : Z) (date : option string) (amount : option real)
    (category subcategory note : option string)
| DeleteExpense (expense_id : Z)
| AddIncome (date : string) (amount : real) (source : string)
    (note : option string)
| EditIncome (income_id : Z) (date : option string) (amount : option real)
    (source note : option string)
| DeleteIncome (income_id : Z).

(** One call: its reply (none for a start) and the store it leaves.  A start
    whose [init_db] raises serves no call and leaves the file as it was. *)
Definition step (c : call) (db : store) : option reply * store :=
  match c with
  | Start =>
      match init_db db with
      | Some db' => (None, db')
      | None => (None, db)
      end
  | AddExpense d a c s n =>
      let (r, db') := add_expense d a c s n db in (Some r, db')
  | EditExpense i d a c s n =>
      let (r, db') := edit_expense i d a c s n db in (Some r, db')
  | DeleteExpense i =>
      let (r, db') := delete_expense i db in (Some r, db')
  | AddIncome d a s n =>
      let (r, db') := add_income d a s n db in (Some r, db')
  | EditIncome i d a s n =>
      let (r, db') := edit_income i d a s n db in (Some r, db')
  | DeleteIncome i =>
      let (r, db') := delete_income i db in (Some r, db')
  end.

(** The calls in order, with the trace of calls and replies. *)
Fixpoint run (cs : list call) (db : store)
    : list (call * option reply) * store :=
  match cs with
  | [] => ([], db)
  | c :: cs' =>
      let (r, db1) := step c db in
      let (tr, db2) := run cs' db1 in
      ((c, r) :: tr, db2)
  end.

(** The identifiers that the trace shows as given to new expenses. *)
Definition new_expense_id (e : call * option reply) : list Z :=
  match e with
  | (AddExpense _ _ _ _ _, Some (Ok n)) => [n]
  | _ => []
  end.

Definition new_income_id (e : call * option reply) : list Z :=
  match e with
  | (AddIncome _ _ _ _, Some (Ok n)) => [n]
  | _ => []
  end.

End Tracker.

Arguments expense_row : clear implicits.
Arguments income_row : clear implicits.
Arguments store : clear implicits.
Arguments expense_update : clear implicits.
Arguments income_update : clear implicits.
Arguments balance : clear implicits.
Arguments summary : clear implicits.
Arguments call : clear implicits.

(** ** The words of the specification *)

(** Lexicographic comparison of two strings, byte by byte: [s <= t]. *)
Fixpoint lex_leb (s t : string) : bool :=
  match s, t with
  | EmptyString, _ => true
  | String _ _, EmptyString => false
  | String c s', String d t' =>
      if (N_of_ascii c <? N_of_ascii d)%N then true
      else if (N_of_ascii c =? N_of_ascii d)%N then lex_leb s' t'
      else false
  end.

(** A date in the closed interval from [lo] to [hi]. *)
Definition in_interval (lo hi d : string) : bool :=
  lex_leb lo d && lex_leb d hi.

(** Date descending, ties broken by identifier descending: a row of date
    [d1] and identifier [n1] may stand before one of date [d2] and
    identifier [n2]. *)
Definition newest_first (d1 : string) (n1 : Z) (d2 : string) (n2 : Z) : Prop :=
  lex_leb d1 d2 = false \/ (d1 = d2 /\ n2 <= n1).

Definition expense_newest_first {real : Type} (r1 r2 : expense_row real) : Prop :=
  newest_first (e_date r1) (e_id r1) (e_date r2) (e_id r2).

(** The sum of a list of amounts, from zero, and of a list of counts. *)
Definition sum_of {real : Type} (rzero : real) (radd : real -> real -> real)
    (xs : list real) : real :=
  fold_left radd xs rzero.


(** The expense rows and the income rows dated in an interval. *)
Definition expenses_in {real : Type} (lo hi : string) (db : store real)
    : list (expense_row real) :=
  filter (fun r => in_interval lo hi (e_date r)) (rows (expenses db)).

Definition income_in {real : Type} (lo hi : string) (db : store real)
    : list (income_row real) :=
  filter (fun r => in_interval lo hi (i_date r)) (rows (income db)).

(** The invariant of a table: the identifiers of its rows increase strictly
    along the rows and none is beyond the counter. *)
Definition table_ok {row : Type} (id_of : row -> Z) (t : table row) : Prop :=
  0 <= seq t
  /\ StronglySorted Z.lt (ids id_of t)
  /\ Forall (fun n => n <= seq t) (ids id_of t).

(** What calls may do to a table, [new] being the identifiers they report
    as given to new rows: the counter does not go back, the new identifiers
    increase and lie beyond the old counter, and every row carries an old
    identifier or a new one. *)
Definition table_grows {row : Type} (id_of : row -> Z) (t t' : table row)
    (new : list Z) : Prop :=
  seq t <= seq t'
  /\ StronglySorted Z.lt new
  /\ Forall (fun n => seq t < n <= seq t') new
  /\ incl (ids id_of t') (ids id_of t ++ new).

Definition store_ok {real : Type} (db : store real) : Prop :=
  table_ok e_id (expenses db) /\ table_ok i_id (income db).

Definition income_newest_first {real : Type} (r1 r2 : income_row real) : Prop :=
  newest_first (i_date r1) (i_id r1) (i_date r2) (i_id r2).

(** The rows of one category, and the strict order of categories. *)
Definition of_category {real : Type} (c : string) (rs : list (expense_row real))
    : list (expense_row real) :=
  filter (fun r => (e_category r =? c)%string) rs.

Definition cat_lt (a b : string) : Prop := String.compare a b = Lt.

(** The counters of the two tables are rowids. *)
Definition counters_fit {real : Type} (db : store real) : Prop :=
  seq (expenses db) <= MAX_ROWID /\ seq (income db) <= MAX_ROWID.

(** The value of a field after an edit: the supplied one, or the old one
    when the field is omitted. *)
Definition edited {V : Type} (old : V) (arg : option V) : V :=
  match arg with Some v => v | None => old end.

(** How many optional fields a call supplies. *)
Definition given {V : Type} (arg : option V) : nat :=
  match arg with Some _ => 1%nat | None => 0%nat end.

(** A row after an edit: each field supplied takes its new value, each
    field omitted keeps the old one, the identifier stays. *)
Definition expense_edited {real : Type} (date : option string)
    (amount : option real) (category subcategory note : option string)
    (r : expense_row real) : expense_row real :=
  mkExpense (e_id r) (edited (e_date r) date) (edited (e_amount r) amount)
    (edited (e_category r) category) (edited (e_subcategory r) subcategory)
    (edited (e_note r) note).

Definition income_edited {real : Type} (date : option string)
    (amount : option real) (source note : option string)
    (r : income_row real) : income_row real :=
  mkIncome (i_id r) (edited (i_date r) date) (edited (i_amount r) amount)
    (edited (i_source r) source) (edited (i_note r) note).

(** The two error messages of the edit and delete tools. *)
Definition not_found (kind : string) (i : Z) : reply :=
  Error (kind ++ " with id " ++ py_str i ++ " not found").

Definition no_op : reply := Error "No fields to update".

(** The answer of a tool whose statement raised at an identifier that does
    not fit in 64 bits; [doing] is "editing expense", "deleting income", ... *)
Definition too_large (doing : string) : reply :=
  Error ("Error " ++ doing ++ ": " ++ overflow_message).

(** A table can take one more row. *)
Definition has_room {row : Type} (id_of : row -> Z) (t : table row) : Prop :=
  Z.max (seq t) (largest_rowid id_of (rows t)) < MAX_ROWID.

(** ** Sample stores, with integer amounts *)

Module Sample.
Definition started : store Z :=
  match init_db 0 empty_store with Some db => db | None => empty_store end.

(** The scenario of the specification: two expenses and one income. *)
Definition january : store Z :=
  snd (run 0
    [AddExpense "2024-01-05" 50 "Food & Dining" None None;
     AddExpense "2024-01-10" 20 "Food & Dining" None (Some "lunch");
     AddIncome "2024-01-07" 1000 "Salary" None]
    started).

(** A store in which a user filed an expense under the category "test". *)
Definition with_test_row : store Z :=
  snd (run 0
    [AddExpense "2024-02-01" 5 "test" None None;
     AddExpense "2024-02-02" 7 "Travel" None None]
    started).


(** A store whose expense counter has reached the largest rowid. *)
Definition full : store Z := mkStore (mkTable [] MAX_ROWID) empty_table.
End Sample.

(** * Properties *)

(** ** Strings *)

Lemma leb_lex_leb (s t : string) : String.leb s t = lex_leb s t.
Proof.
  unfold String.leb. revert t.
  induction s as [|c s IH]; intros [|d t]; simpl; trivial.
  unfold Ascii.compare.
  destruct (N.compare_spec (N_of_ascii c) (N_of_ascii d)) as [E|L|G].
  - rewrite E, N.ltb_irrefl, N.eqb_refl. apply IH.
  - apply N.ltb_lt in L. now rewrite L.
  - assert (H1 : (N_of_ascii c <? N_of_ascii d)%N = false) by (apply N.ltb_ge; lia).
    assert (H2 : (N_of_ascii c =? N_of_ascii d)%N = false) by (apply N.eqb_neq; lia).
    now rewrite H1, H2.
Qed.

Lemma sql_between_in_interval (lo hi d : string) :
  sql_between lo hi d = in_interval lo hi d.
Proof. unfold sql_between, in_interval. now rewrite !leb_lex_leb. Qed.

Lemma lex_leb_refl (s : string) : lex_leb s s = true.
Proof.
  induction s as [|c s IH]; simpl; trivial.
  now rewrite N.ltb_irrefl, N.eqb_refl.
Qed.

Lemma lex_leb_trans (s t u : string) :
  lex_leb s t = true -> lex_leb t u = true -> lex_leb s u = true.
Proof.
  revert t u.
  induction s as [|c s IH]; intros [|d t] [|e u]; simpl; trivial; try discriminate.
  destruct (N.ltb_spec (N_of_ascii c) (N_of_ascii d)) as [L1|L1];
    destruct (N.ltb_spec (N_of_ascii d) (N_of_ascii e)) as [L2|L2];
    destruct (N.ltb_spec (N_of_ascii c) (N_of_ascii e)) as [L3|L3];
    trivial; try lia;
    destruct (N.eqb_spec (N_of_ascii c) (N_of_ascii d)) as [E1|E1];
    destruct (N.eqb_spec (N_of_ascii d) (N_of_ascii e)) as [E2|E2];
    destruct (N.eqb_spec (N_of_ascii c) (N_of_ascii e)) as [E3|E3];
    try discriminate; try lia.
  intros; eapply IH; eassumption.
Qed.

Lemma lex_leb_total (s t : string) : lex_leb s t = false -> lex_leb t s = true.
Proof.
  revert t.
  induction s as [|c s IH]; intros [|d t]; simpl; trivial; try discriminate.
  destruct (N.ltb_spec (N_of_ascii c) (N_of_ascii d)) as [L1|L1]; try discriminate.
  destruct (N.ltb_spec (N_of_ascii d) (N_of_ascii c)) as [L2|L2]; trivial.
  destruct (N.eqb_spec (N_of_ascii c) (N_of_ascii d)) as [E1|E1]; try lia.
  destruct (N.eqb_spec (N_of_ascii d) (N_of_ascii c)) as [E2|E2]; try lia.
  apply IH.
Qed.

Lemma lex_leb_antisym (s t : string) :
  lex_leb s t = true -> lex_leb t s = true -> s = t.
Proof. rewrite <- !leb_lex_leb. apply String.leb_antisym. Qed.

(** The order of [ORDER BY date DESC, id DESC] is the one the specification
    describes. *)
Lemma date_id_desc_true d1 n1 d2 n2 :
  date_id_desc d1 n1 d2 n2 = true -> newest_first d1 n1 d2 n2.
Proof.
  unfold date_id_desc, newest_first. rewrite <- leb_lex_leb. unfold String.leb.
  destruct (String.compare d1 d2) eqn:E; try discriminate.
  - intros H. apply Z.leb_le in H. right. split; [now apply String.compare_eq_iff | lia].
  - now left.
Qed.

Lemma date_id_desc_false d1 n1 d2 n2 :
  date_id_desc d1 n1 d2 n2 = false -> newest_first d2 n2 d1 n1.
Proof.
  unfold date_id_desc, newest_first. rewrite <- leb_lex_leb. unfold String.leb.
  rewrite (String.compare_antisym d1 d2).
  destruct (String.compare d2 d1) eqn:E; simpl; try discriminate.
  - intros H. apply Z.leb_gt in H. right. apply String.compare_eq_iff in E.
    split; [assumption | lia].
  - now left.
Qed.

Lemma newest_first_trans d1 n1 d2 n2 d3 n3 :
  newest_first d1 n1 d2 n2 -> newest_first d2 n2 d3 n3 -> newest_first d1 n1 d3 n3.
Proof.
  unfold newest_first. intros [H1|[E1 H1]] [H2|[E2 H2]]; subst.
  - left. destruct (lex_leb d1 d3) eqn:E; trivial.
    apply lex_leb_total in H2.
    now rewrite (lex_leb_trans _ _ _ E H2) in H1.
  - now left.
  - now left.
  - right. split; [reflexivity | lia].
Qed.

(** ** ORDER BY *)

Section OrderByFacts.
Context {A : Type}.
Variable before : A -> A -> bool.

Lemma place_perm (x : A) (l : list A) : Permutation (place before x l) (x :: l).
Proof.
  induction l as [|y l IH]; simpl; [reflexivity|].
  destruct (before x y); [reflexivity|].
  rewrite IH. apply perm_swap.
Qed.

Lemma order_by_perm (l : list A) : Permutation (order_by before l) l.
Proof.
  induction l as [|x l IH]; simpl; [reflexivity|].
  rewrite place_perm. now constructor.
Qed.

Variable R : A -> A -> Prop.
Hypothesis before_true : forall x y, before x y = true -> R x y.
Hypothesis before_false : forall x y, before x y = false -> R y x.

Lemma place_hd (a x : A) (l : list A) :
  R a x -> HdRel R a l -> HdRel R a (place before x l).
Proof.
  intros Hax Hl. destruct l as [|y l]; simpl.
  - now constructor.
  - destruct (before x y); constructor; trivial.
    now inversion Hl.
Qed.

Lemma place_sorted (x : A) (l : list A) :
  Sorted R l -> Sorted R (place before x l).
Proof.
  induction 1 as [|y l Hs IH Hhd]; simpl.
  - repeat constructor.
  - destruct (before x y) eqn:E.
    + constructor; [now constructor | constructor; auto].
    + constructor; [assumption | apply place_hd; auto].
Qed.

Lemma order_by_sorted (l : list A) : Sorted R (order_by before l).
Proof.
  induction l as [|x l IH]; simpl; [constructor | now apply place_sorted].
Qed.
End OrderByFacts.

(** ** Tables *)

Section TableFacts.
Context {row : Type}.
Variable id_of : row -> Z.

Lemma select_by_id_none (i : Z) (t : table row) :
  select_by_id id_of i t = None <-> ~ In i (ids id_of t).
Proof.
  unfold select_by_id, ids. destruct t as [rs sq]; simpl.
  induction rs as [|r rs IH]; simpl; [tauto|].
  destruct (Z.eqb_spec (id_of r) i) as [E|E].
  - split; [discriminate | intros H; exfalso; apply H; now left].
  - rewrite IH. tauto.
Qed.

Lemma fetch_by_id_row (i : Z) (t : table row) (r : row) :
  select_by_id id_of i t = Some r -> fetch_by_id id_of i t = Row r.
Proof. unfold fetch_by_id. now intros ->. Qed.

Lemma fetch_by_id_absent (i : Z) (t : table row) :
  select_by_id id_of i t = None ->
  fetch_by_id id_of i t = if fits_int64 i then NoRow else Raised overflow_message.
Proof. unfold fetch_by_id. now intros ->. Qed.

Lemma select_by_id_some (i : Z) (t : table row) :
  In i (ids id_of t) -> exists r, select_by_id id_of i t = Some r.
Proof.
  intros H. destruct (select_by_id id_of i t) as [r|] eqn:E; [now exists r|].
  apply select_by_id_none in E. contradiction.
Qed.

(** An insert succeeds exactly when the table has room, and then gives the
    row an identifier beyond every one the table ever used. *)
Lemma sql_insert_room (mk : Z -> row) (t : table row) :
  has_room id_of t ->
  exists n, sql_insert id_of mk t = Some (n, mkTable (rows t ++ [mk n]) n)
            /\ seq t < n /\ largest_rowid id_of (rows t) < n.
Proof.
  unfold has_room, sql_insert. intros H.
  destruct (Z.leb_spec MAX_ROWID (Z.max (seq t) (largest_rowid id_of (rows t)))); [lia|].
  eexists. split; [reflexivity | lia].
Qed.

Lemma sql_insert_some (mk : Z -> row) (t t' : table row) (n : Z) :
  sql_insert id_of mk t = Some (n, t') ->
  t' = mkTable (rows t ++ [mk n]) n
  /\ seq t < n /\ largest_rowid id_of (rows t) < n /\ n <= MAX_ROWID.
Proof.
  unfold sql_insert.
  destruct (Z.leb_spec MAX_ROWID (Z.max (seq t) (largest_rowid id_of (rows t))));
    [discriminate|].
  intros [= <- <-]. repeat split; lia.
Qed.
End TableFacts.

(** ** Editing and deleting *)

Section EditFacts.
Context {real : Type}.
Implicit Types (db : store real) (i : Z).

Lemma expense_updates_length (d : option string) (a : option real)
    (c s n : option string) :
  List.length (expense_updates d a c s n)
  = (given d + given a + given c + given s + given n)%nat.
Proof. destruct d, a, c, s, n; reflexivity. Qed.

Lemma income_updates_length (d : option string) (a : option real)
    (s n : option string) :
  List.length (income_updates d a s n) = (given d + given a + given s + given n)%nat.
Proof. destruct d, a, s, n; reflexivity. Qed.

Lemma expense_updates_apply (d : option string) (a : option real)
    (c s n : option string) (r : expense_row real) :
  apply_updates set_expense (expense_updates d a c s n) r
  = expense_edited d a c s n r.
Proof. destruct r, d, a, c, s, n; reflexivity. Qed.

Lemma income_updates_apply (d : option string) (a : option real)
    (s n : option string) (r : income_row real) :
  apply_updates set_income (income_updates d a s n) r = income_edited d a s n r.
Proof. destruct r, d, a, s, n; reflexivity. Qed.

Lemma nth_error_update {row : Type} (id_of : row -> Z) (f : row -> row)
    (i : Z) (t : table row) (k : nat) (r : row) :
  nth_error (rows t) k = Some r ->
  nth_error (rows (sql_update id_of i f t)) k
  = Some (if id_of r =? i then f r else r).
Proof.
  intros H. unfold sql_update; simpl.
  now rewrite nth_error_map, H.
Qed.
End EditFacts.

Section EditTheorems.
Context {real : Type}.
Implicit Types (db : store real) (i : Z).

(** C1, as amended: [edit_expense] and [edit_income] called with no optional
    field always return an error and leave the store as it was; the error
    is "No fields to update" when a row with the identifier exists; when
    none does, because the row is read first, it is the not-found error for
    an identifier that fits in 64 bits, and the error of the statement that
    cannot bind it for one that does not. *)
Theorem edit_without_fields db i :
  (snd (edit_expense i None None None None None db) = db
   /\ (In i (ids e_id (expenses db)) ->
       fst (edit_expense i None None None None None db) = no_op)
   /\ (~ In i (ids e_id (expenses db)) -> fits_int64 i = true ->
       fst (edit_expense i None None None None None db) = not_found "Expense" i)
   /\ (~ In i (ids e_id (expenses db)) -> fits_int64 i = false ->
       fst (edit_expense i None None None None None db)
       = too_large "editing expense"))
  /\
  (snd (edit_income i None None None None db) = db
   /\ (In i (ids i_id (income db)) ->
       fst (edit_income i None None None None db) = no_op)
   /\ (~ In i (ids i_id (income db)) -> fits_int64 i = true ->
       fst (edit_income i None None None None db) = not_found "Income" i)
   /\ (~ In i (ids i_id (income db)) -> fits_int64 i = false ->
       fst (edit_income i None None None None db) = too_large "editing income")).
Proof.
  split.
  - unfold edit_expense, fetch_by_id.
    destruct (select_by_id e_id i (expenses db)) as [r|] eqn:E.
    + cbn [fst snd expense_updates supplied app].
      split; [reflexivity|]. split; [reflexivity|].
      split; intros H; apply select_by_id_none in H; congruence.
    + apply select_by_id_none in E.
      split; [now destruct (fits_int64 i)|].
      split; [intros H; contradiction|].
      split; intros _ F; rewrite F; reflexivity.
  - unfold edit_income, fetch_by_id.
    destruct (select_by_id i_id i (income db)) as [r|] eqn:E.
    + cbn [fst snd income_updates supplied app].
      split; [reflexivity|]. split; [reflexivity|].
      split; intros H; apply select_by_id_none in H; congruence.
    + apply select_by_id_none in E.
      split; [now destruct (fits_int64 i)|].
      split; [intros H; contradiction|].
      split; intros _ F; rewrite F; reflexivity.
Qed.

(** C2, as amended: for an identifier that no row of the table carries, the
    edit (whatever fields it supplies) and the delete tool of that table
    leave the whole store unchanged and return an error: the not-found
    error when the identifier fits in a signed 64-bit integer, and the
    error of the statement that cannot bind it when it does not. *)
Theorem absent_id_not_found db i :
  (~ In i (ids e_id (expenses db)) ->
   (fits_int64 i = true ->
    (forall d a c s n,
       edit_expense i d a c s n db = (not_found "Expense" i, db))
    /\ delete_expense i db = (not_found "Expense" i, db))
   /\ (fits_int64 i = false ->
       (forall d a c s n,
          edit_expense i d a c s n db = (too_large "editing expense", db))
       /\ delete_expense i db = (too_large "deleting expense", db)))
  /\
  (~ In i (ids i_id (income db)) ->
   (fits_int64 i = true ->
    (forall d a s n, edit_income i d a s n db = (not_found "Income" i, db))
    /\ delete_income i db = (not_found "Income" i, db))
   /\ (fits_int64 i = false ->
       (forall d a s n,
          edit_income i d a s n db = (too_large "editing income", db))
       /\ delete_income i db = (too_large "deleting income", db))).
Proof.
  split; intros H; apply select_by_id_none in H.
  - unfold edit_expense, delete_expense.
    rewrite (fetch_by_id_absent e_id i _ H).
    split; intros ->; split; reflexivity.
  - unfold edit_income, delete_income.
    rewrite (fetch_by_id_absent i_id i _ H).
    split; intros ->; split; reflexivity.
Qed.

(** C3: on an existing row, an edit that supplies at least one field
    answers with the number of supplied fields, gives each supplied field
    of the rows of that identifier its new value (the empty string
    included), keeps the omitted fields, and keeps every other row, the
    other table and the counters. *)
Theorem edit_changes_supplied_fields db i :
  (forall d a c s n,
     In i (ids e_id (expenses db)) ->
     (0 < given d + given a + given c + given s + given n)%nat ->
     let db' := snd (edit_expense i d a c s n db) in
     fst (edit_expense i d a c s n db)
     = OkUpdated i (given d + given a + given c + given s + given n)
     /\ income db' = income db
     /\ seq (expenses db') = seq (expenses db)
     /\ List.length (rows (expenses db')) = List.length (rows (expenses db))
     /\ forall k r, nth_error (rows (expenses db)) k = Some r ->
          nth_error (rows (expenses db')) k
          = Some (if e_id r =? i then expense_edited d a c s n r else r))
  /\
  (forall d a s n,
     In i (ids i_id (income db)) ->
     (0 < given d + given a + given s + given n)%nat ->
     let db' := snd (edit_income i d a s n db) in
     fst (edit_income i d a s n db)
     = OkUpdated i (given d + given a + given s + given n)
     /\ expenses db' = expenses db
     /\ seq (income db') = seq (income db)
     /\ List.length (rows (income db')) = List.length (rows (income db))
     /\ forall k r, nth_error (rows (income db)) k = Some r ->
          nth_error (rows (income db')) k
          = Some (if i_id r =? i then income_edited d a s n r else r)).
Proof.
  split.
  - intros d a c s n Hin Hpos db'. subst db'.
    apply select_by_id_some in Hin. destruct Hin as [r0 E].
    unfold edit_expense, fetch_by_id. rewrite E.
    pose proof (expense_updates_length d a c s n) as L.
    destruct (expense_updates d a c s n) as [|u us] eqn:U.
    { simpl in L. lia. }
    cbv zeta. rewrite L. cbn [fst snd expenses income].
    repeat split.
    + unfold sql_update; simpl. now rewrite length_map.
    + intros k r Hk.
      rewrite (nth_error_update e_id _ i (expenses db) k r Hk).
      destruct (e_id r =? i); [|reflexivity].
      now rewrite <- U, expense_updates_apply.
  - intros d a s n Hin Hpos db'. subst db'.
    apply select_by_id_some in Hin. destruct Hin as [r0 E].
    unfold edit_income, fetch_by_id. rewrite E.
    pose proof (income_updates_length d a s n) as L.
    destruct (income_updates d a s n) as [|u us] eqn:U.
    { simpl in L. lia. }
    cbv zeta. rewrite L. cbn [fst snd expenses income].
    repeat split.
    + unfold sql_update; simpl. now rewrite length_map.
    + intros k r Hk.
      rewrite (nth_error_update i_id _ i (income db) k r Hk).
      destruct (i_id r =? i); [|reflexivity].
      now rewrite <- U, income_updates_apply.
Qed.
End EditTheorems.

(** ** Listing *)

Lemma filter_none {A : Type} (f : A -> bool) (l : list A) :
  (forall x, In x l -> f x = false) -> filter f l = [].
Proof.
  induction l as [|x l IH]; simpl; intros H; trivial.
  rewrite (H x (or_introl eq_refl)). apply IH.
  intros y Hy. apply H. now right.
Qed.

Section ListTheorems.
Context {real : Type}.
Implicit Types (db : store real) (r : expense_row real).

Lemma list_expenses_perm (lo hi : string) db :
  Permutation (list_expenses lo hi db) (expenses_in lo hi db).
Proof.
  unfold list_expenses, expenses_in. rewrite order_by_perm.
  erewrite filter_ext; [reflexivity|].
  intros r. apply sql_between_in_interval.
Qed.

(** C4: [list_expenses] returns exactly the expense rows whose date lies in
    the closed interval under the lexicographic order of strings, sorted by
    date descending and then by identifier descending, and returns the
    empty list when no row matches. *)
Theorem list_expenses_range_order (lo hi : string) db :
  Permutation (list_expenses lo hi db) (expenses_in lo hi db)
  /\ (forall r, In r (list_expenses lo hi db) <->
        In r (rows (expenses db))
        /\ lex_leb lo (e_date r) = true /\ lex_leb (e_date r) hi = true)
  /\ StronglySorted expense_newest_first (list_expenses lo hi db)
  /\ ((forall r, In r (rows (expenses db)) -> in_interval lo hi (e_date r) = false) ->
      list_expenses lo hi db = []).
Proof.
  pose proof (list_expenses_perm lo hi db) as P.
  split; [exact P|]. split; [|split].
  - intros r. split.
    + intros H. apply (Permutation_in _ P) in H.
      apply filter_In in H. unfold in_interval in H.
      now rewrite andb_true_iff in H.
    + intros (H & H1 & H2). apply (Permutation_in _ (Permutation_sym P)).
      apply filter_In. unfold in_interval. now rewrite H1, H2.
  - apply Sorted_StronglySorted.
    + intros x y z. apply newest_first_trans.
    + unfold list_expenses. apply order_by_sorted.
      * intros x y. apply date_id_desc_true.
      * intros x y. apply date_id_desc_false.
  - intros H. apply Permutation_nil. symmetry.
    replace (expenses_in lo hi db) with (@nil (expense_row real)) in P; [exact P|].
    symmetry. unfold expenses_in. now apply filter_none.
Qed.

(** C7: when the table has room for the insert, [add_expense] answers with
    the new identifier, and a [list_expenses] right after it, over any
    interval that contains the date, returns a row with that identifier
    and every supplied value, the subcategory and the note being the empty
    string when they were omitted. *)
Theorem add_then_list (date : string) (amount : real) (category : string)
    (subcategory note : option string) (lo hi : string) db :
  has_room e_id (expenses db) ->
  in_interval lo hi date = true ->
  exists n,
    fst (add_expense date amount category subcategory note db) = Ok n
    /\ In (mkExpense n date amount category
             (match subcategory with Some v => v | None => "" end)
             (match note with Some v => v | None => "" end))
          (list_expenses lo hi
             (snd (add_expense date amount category subcategory note db))).
Proof.
  intros Hroom Hin.
  destruct (sql_insert_room e_id
              (fun n => mkExpense n date amount category
                          (arg_default "" subcategory) (arg_default "" note))
              (expenses db) Hroom) as (n & E & _).
  exists n. unfold add_expense. rewrite E. cbn [fst snd]. split; [reflexivity|].
  apply (Permutation_in _ (Permutation_sym (list_expenses_perm lo hi _))).
  apply filter_In. cbn [expenses rows e_date]. split; [|exact Hin].
  apply in_or_app. right. now left.
Qed.
End ListTheorems.

(** ** Balance and summary *)

Section SumTheorems.
Context {real : Type}.
Variable rzero : real.
Variable radd rsub : real -> real -> real.
Variable rleb : real -> real -> bool.
Implicit Types (db : store real) (xs : list real).

Lemma filter_between_expenses (lo hi : string) db :
  filter (fun r => sql_between lo hi (e_date r)) (rows (expenses db))
  = expenses_in lo hi db.
Proof. apply filter_ext. intros r. apply sql_between_in_interval. Qed.

Lemma filter_between_income (lo hi : string) db :
  filter (fun r => sql_between lo hi (i_date r)) (rows (income db))
  = income_in lo hi db.
Proof. apply filter_ext. intros r. apply sql_between_in_interval. Qed.




(** With a zero that is neutral on the left, [SUM] with its default is the
    sum from zero. *)
Section Zero.
Hypothesis radd_0_l : forall x, radd rzero x = x.

Lemma or_zero_sql_sum xs :
  or_zero rzero (sql_sum radd xs) = sum_of rzero radd xs.
Proof.
  destruct xs as [|x xs]; simpl; trivial.
  unfold sum_of; simpl. now rewrite radd_0_l.
Qed.

(** C5: [get_balance] returns as total of the expenses, and as total of
    the income, the sum of the amounts of the rows dated in the closed
    interval, each total being 0 when no row matches, as balance the
    income total minus the expense total, and the two dates it was
    given. *)
Theorem get_balance_totals (lo hi : string) db :
  let b := get_balance rzero radd rsub lo hi db in
  total_expenses b = sum_of rzero radd (map e_amount (expenses_in lo hi db))
  /\ total_income b = sum_of rzero radd (map i_amount (income_in lo hi db))
  /\ (expenses_in lo hi db = [] -> total_expenses b = rzero)
  /\ (income_in lo hi db = [] -> total_income b = rzero)
  /\ balance_of b = rsub (total_income b) (total_expenses b)
  /\ start_date_of b = lo
  /\ end_date_of b = hi.
Proof.
  unfold get_balance. cbn [total_expenses total_income balance_of
                             start_date_of end_date_of].
  rewrite filter_between_expenses, filter_between_income.
  rewrite !or_zero_sql_sum.
  repeat split; intros ->; reflexivity.
Qed.
End Zero.

(** With an addition that is associative and commutative, the sum does not
    depend on the order or on the grouping of the amounts. *)
Section Exact.
Hypothesis radd_assoc : forall x y z, radd x (radd y z) = radd (radd x y) z.
Hypothesis radd_comm : forall x y, radd x y = radd y x.






End Exact.

End SumTheorems.

(** ** Identifiers *)

Section IdFacts.
Context {row : Type}.
Variable id_of : row -> Z.

Lemma sorted_lt_snoc (l : list Z) (n : Z) :
  StronglySorted Z.lt l -> Forall (fun m => m < n) l ->
  StronglySorted Z.lt (l ++ [n]).
Proof.
  induction 1 as [|x l Hs IH Hx]; simpl; intros Hn.
  - repeat constructor.
  - inversion Hn; subst. constructor; [now apply IH|].
    apply Forall_app. split; [assumption | now repeat constructor].
Qed.

Lemma sorted_lt_app (l1 l2 : list Z) (b : Z) :
  StronglySorted Z.lt l1 -> StronglySorted Z.lt l2 ->
  Forall (fun m => m <= b) l1 -> Forall (fun m => b < m) l2 ->
  StronglySorted Z.lt (l1 ++ l2).
Proof.
  induction 1 as [|x l Hs IH Hx]; simpl; intros H2 Hle Hgt; trivial.
  inversion Hle; subst. constructor; [now apply IH|].
  apply Forall_app. split; [assumption|].
  eapply Forall_impl; [|exact Hgt]. simpl; intros; lia.
Qed.

Lemma sorted_lt_nodup (l : list Z) : StronglySorted Z.lt l -> NoDup l.
Proof.
  induction 1 as [|x l Hs IH Hx]; constructor; trivial.
  intros Hin. rewrite Forall_forall in Hx. specialize (Hx x Hin). lia.
Qed.

Lemma ids_filter_sorted (f : row -> bool) (rs : list row) :
  StronglySorted Z.lt (map id_of rs) ->
  StronglySorted Z.lt (map id_of (filter f rs)).
Proof.
  induction rs as [|r rs IH]; simpl; intros H; trivial.
  inversion H as [|? ? Hs Hx]; subst.
  destruct (f r); simpl; [|now apply IH].
  constructor; [now apply IH|].
  rewrite Forall_forall in *. intros n Hn. apply Hx.
  apply in_map_iff in Hn. destruct Hn as (x & <- & Hin).
  apply in_map. apply filter_In in Hin. tauto.
Qed.

Lemma ids_filter_incl (f : row -> bool) (rs : list row) :
  incl (map id_of (filter f rs)) (map id_of rs).
Proof.
  intros n Hn. apply in_map_iff in Hn. destruct Hn as (x & <- & Hin).
  apply in_map. apply filter_In in Hin. tauto.
Qed.

Lemma table_ok_delete (cond : row -> bool) (t : table row) :
  table_ok id_of t -> table_ok id_of (sql_delete cond t).
Proof.
  intros (H0 & Hs & Hb). unfold table_ok, sql_delete, ids; simpl.
  repeat split; trivial.
  - now apply ids_filter_sorted.
  - rewrite Forall_forall in *. intros n Hn. apply Hb.
    exact (ids_filter_incl _ _ n Hn).
Qed.

Lemma ids_update (i : Z) (set : row -> row) (t : table row) :
  (forall r, id_of (set r) = id_of r) ->
  ids id_of (sql_update id_of i set t) = ids id_of t.
Proof.
  intros H. unfold ids, sql_update; simpl. rewrite map_map.
  apply map_ext. intros r. now destruct (id_of r =? i).
Qed.

Lemma table_ok_update (i : Z) (set : row -> row) (t : table row) :
  (forall r, id_of (set r) = id_of r) ->
  table_ok id_of t -> table_ok id_of (sql_update id_of i set t).
Proof.
  intros H (H0 & Hs & Hb). unfold table_ok.
  rewrite (ids_update i set t H). now repeat split.
Qed.

Lemma table_ok_insert (mk : Z -> row) (t t' : table row) (n : Z) :
  (forall m, id_of (mk m) = m) ->
  table_ok id_of t -> sql_insert id_of mk t = Some (n, t') ->
  table_ok id_of t' /\ seq t < n /\ seq t' = n
  /\ ids id_of t' = (ids id_of t ++ [n])%list.
Proof.
  intros Hmk (H0 & Hs & Hb) E.
  apply sql_insert_some in E. destruct E as (-> & Hn & _ & _).
  assert (I : ids id_of (mkTable (rows t ++ [mk n]) n) = (ids id_of t ++ [n])%list).
  { unfold ids; simpl. rewrite map_app; simpl. now rewrite Hmk. }
  split; [|repeat split; trivial].
  unfold table_ok. rewrite I. simpl. repeat split; [lia| |].
  - apply sorted_lt_snoc; trivial.
    eapply Forall_impl; [|exact Hb]. simpl; intros; lia.
  - apply Forall_app. split; [|repeat constructor; lia].
    eapply Forall_impl; [|exact Hb]. simpl; intros; lia.
Qed.

Lemma table_grows_refl (t : table row) : table_grows id_of t t [].
Proof.
  unfold table_grows. repeat split; try constructor; try lia.
  rewrite app_nil_r. apply incl_refl.
Qed.

Lemma table_grows_same_ids (t t' : table row) :
  seq t <= seq t' -> incl (ids id_of t') (ids id_of t) ->
  table_grows id_of t t' [].
Proof.
  intros Hs Hi. unfold table_grows. repeat split; try constructor; trivial.
  now rewrite app_nil_r.
Qed.

Lemma table_grows_trans (t t1 t2 : table row) (n1 n2 : list Z) :
  table_grows id_of t t1 n1 -> table_grows id_of t1 t2 n2 ->
  table_grows id_of t t2 (n1 ++ n2).
Proof.
  intros (S1 & O1 & B1 & I1) (S2 & O2 & B2 & I2).
  unfold table_grows. repeat split.
  - lia.
  - apply (sorted_lt_app n1 n2 (seq t1)); trivial.
    + eapply Forall_impl; [|exact B1]. simpl; intros; lia.
    + eapply Forall_impl; [|exact B2]. simpl; intros; lia.
  - apply Forall_app. split.
    + eapply Forall_impl; [|exact B1]. simpl; intros; lia.
    + eapply Forall_impl; [|exact B2]. simpl; intros; lia.
  - intros n Hn. apply I2 in Hn. rewrite app_assoc.
    apply in_app_or in Hn. apply in_or_app.
    destruct Hn as [Hn|Hn]; [left; now apply I1 | now right].
Qed.
End IdFacts.

(** The store as a pair of tables: the four parts of a step's invariant, and
    the parts of a table that the call left alone. *)
Ltac four_parts := split; [split|split].
Ltac same_store :=
  solve [ assumption | apply table_grows_refl
        | four_parts; (assumption || apply table_grows_refl) ].

Section StoreFacts.
Context {real : Type}.
Variable rzero : real.
Implicit Types (db : store real) (c : call real).

Lemma table_grows_insert {row : Type} (id_of : row -> Z) (mk : Z -> row)
    (t t' : table row) (n : Z) :
  (forall m, id_of (mk m) = m) ->
  table_ok id_of t -> sql_insert id_of mk t = Some (n, t') ->
  table_grows id_of t t' [n].
Proof.
  intros Hmk Hok E.
  destruct (table_ok_insert id_of mk t t' n Hmk Hok E) as (_ & Hn & Hs & Hi).
  unfold table_grows. rewrite Hi, Hs.
  repeat split; try lia; repeat constructor; try lia.
  apply incl_refl.
Qed.

Lemma table_grows_delete {row : Type} (id_of : row -> Z) (cond : row -> bool)
    (t : table row) :
  table_grows id_of t (sql_delete cond t) [].
Proof.
  apply table_grows_same_ids; simpl; [lia|].
  apply ids_filter_incl.
Qed.

Lemma table_grows_update {row : Type} (id_of : row -> Z) (i : Z)
    (set : row -> row) (t : table row) :
  (forall r, id_of (set r) = id_of r) ->
  table_grows id_of t (sql_update id_of i set t) [].
Proof.
  intros H. apply table_grows_same_ids; simpl; [lia|].
  rewrite (ids_update id_of i set t H). apply incl_refl.
Qed.

Lemma apply_updates_expense_id (us : list (expense_update real))
    (r : expense_row real) :
  e_id (apply_updates set_expense us r) = e_id r.
Proof.
  unfold apply_updates. revert r.
  induction us as [|u us IH]; intros r; simpl; trivial.
  rewrite IH. now destruct u.
Qed.

Lemma apply_updates_income_id (us : list (income_update real))
    (r : income_row real) :
  i_id (apply_updates set_income us r) = i_id r.
Proof.
  unfold apply_updates. revert r.
  induction us as [|u us IH]; intros r; simpl; trivial.
  rewrite IH. now destruct u.
Qed.

(** The write test of [init_db] leaves the rows that are not of category
    "test", in their order. *)
Lemma init_db_rows db db' :
  init_db rzero db = Some db' ->
  rows (expenses db')
  = filter (fun r => negb (e_category r =? "test")%string) (rows (expenses db))
  /\ seq (expenses db) < seq (expenses db')
  /\ income db' = income db.
Proof.
  unfold init_db.
  destruct (sql_insert e_id _ (expenses db)) as [[n t]|] eqn:E; [|discriminate].
  intros [= <-]. apply sql_insert_some in E. destruct E as (-> & Hn & _ & _).
  cbn [expenses income sql_delete rows seq].
  rewrite filter_app; simpl. rewrite app_nil_r. now repeat split.
Qed.

Lemma step_ok c db :
  store_ok db ->
  store_ok (snd (step rzero c db))
  /\ table_grows e_id (expenses db) (expenses (snd (step rzero c db)))
       (new_expense_id (c, fst (step rzero c db)))
  /\ table_grows i_id (income db) (income (snd (step rzero c db)))
       (new_income_id (c, fst (step rzero c db))).
Proof.
  intros [He Hi]. unfold store_ok.
  destruct c as [|d a c s n|i d a c s n|i|d a s n|i d a s n|i];
    cbn [step new_expense_id new_income_id].
  - destruct (init_db rzero db) as [db'|] eqn:E; cbn [fst snd]; [|same_store].
    pose proof (init_db_rows db db' E) as (Hr & Hs & Hinc).
    rewrite Hinc. four_parts; try same_store.
    + destruct He as (H0 & Hso & Hb). unfold table_ok, ids. rewrite Hr.
      split; [lia|]. split; [now apply ids_filter_sorted|].
      rewrite Forall_forall in *. intros m Hm.
      apply ids_filter_incl in Hm. specialize (Hb m Hm). lia.
    + apply table_grows_same_ids; [lia|].
      unfold ids. rewrite Hr. apply ids_filter_incl.
  - unfold add_expense.
    destruct (sql_insert e_id _ (expenses db)) as [[m t]|] eqn:E;
      cbn [fst snd expenses income]; [|same_store].
    four_parts; try same_store.
    + eapply table_ok_insert; [|exact He|exact E]. reflexivity.
    + eapply table_grows_insert; [|exact He|exact E]. reflexivity.
  - unfold edit_expense.
    destruct (fetch_by_id e_id i (expenses db)); cbn [fst snd];
      [|same_store|same_store].
    destruct (expense_updates d a c s n) as [|u us];
      cbn [fst snd expenses income]; [same_store|].
    four_parts; try same_store.
    + apply table_ok_update; trivial. apply apply_updates_expense_id.
    + apply table_grows_update. apply apply_updates_expense_id.
  - unfold delete_expense.
    destruct (fetch_by_id e_id i (expenses db));
      cbn [fst snd expenses income]; [|same_store|same_store].
    four_parts; try same_store.
    + now apply table_ok_delete.
    + apply table_grows_delete.
  - unfold add_income.
    destruct (sql_insert i_id _ (income db)) as [[m t]|] eqn:E;
      cbn [fst snd expenses income]; [|same_store].
    four_parts; try same_store.
    + eapply table_ok_insert; [|exact Hi|exact E]. reflexivity.
    + eapply table_grows_insert; [|exact Hi|exact E]. reflexivity.
  - unfold edit_income.
    destruct (fetch_by_id i_id i (income db)); cbn [fst snd];
      [|same_store|same_store].
    destruct (income_updates d a s n) as [|u us];
      cbn [fst snd expenses income]; [same_store|].
    four_parts; try same_store.
    + apply table_ok_update; trivial. apply apply_updates_income_id.
    + apply table_grows_update. apply apply_updates_income_id.
  - unfold delete_income.
    destruct (fetch_by_id i_id i (income db));
      cbn [fst snd expenses income]; [|same_store|same_store].
    four_parts; try same_store.
    + now apply table_ok_delete.
    + apply table_grows_delete.
Qed.
End StoreFacts.

Section StoreTheorems.
Context {real : Type}.
Variable rzero : real.
Variable radd : real -> real -> real.
Variable rleb : real -> real -> bool.
Implicit Types (db : store real) (c : call real).

Lemma run_ok (cs : list (call real)) db :
  store_ok db ->
  store_ok (snd (run rzero cs db))
  /\ table_grows e_id (expenses db) (expenses (snd (run rzero cs db)))
       (flat_map new_expense_id (fst (run rzero cs db)))
  /\ table_grows i_id (income db) (income (snd (run rzero cs db)))
       (flat_map new_income_id (fst (run rzero cs db))).
Proof.
  revert db. induction cs as [|c cs IH]; intros db Hok; cbn [run].
  - cbn [fst snd flat_map]. destruct Hok. same_store.
  - destruct (step_ok rzero c db Hok) as (Hok1 & Ge1 & Gi1).
    destruct (step rzero c db) as [r db1]. cbn [fst snd] in *.
    destruct (IH db1 Hok1) as (Hok2 & Ge2 & Gi2).
    destruct (run rzero cs db1) as [tr db2]. cbn [fst snd flat_map] in *.
    split; [exact Hok2|]. split.
    + exact (table_grows_trans e_id _ _ _ _ _ Ge1 Ge2).
    + exact (table_grows_trans i_id _ _ _ _ _ Gi1 Gi2).
Qed.

Lemma empty_store_ok : store_ok (@empty_store real).
Proof. split; (split; [simpl; lia | split; constructor]). Qed.

(** C8: in the store left by a first start and any calls after it, the
    rows of a table carry pairwise distinct identifiers; over the whole
    history the identifiers that [add_expense] (and [add_income]) returned
    increase strictly, so none is returned twice; and an identifier that a
    row of that store carries is never returned for a new row by any later
    calls, whether the row has been deleted in between or not. *)
Theorem ids_unique_never_reused (cs later : list (call real)) :
  let tr := fst (run rzero (Start :: cs) empty_store) in
  let db := snd (run rzero (Start :: cs) empty_store) in
  (NoDup (ids e_id (expenses db)) /\ NoDup (ids i_id (income db)))
  /\ (StronglySorted Z.lt (flat_map new_expense_id tr)
      /\ StronglySorted Z.lt (flat_map new_income_id tr))
  /\ (NoDup (flat_map new_expense_id tr) /\ NoDup (flat_map new_income_id tr))
  /\ (incl (ids e_id (expenses db)) (flat_map new_expense_id tr)
      /\ incl (ids i_id (income db)) (flat_map new_income_id tr))
  /\ (forall n, In n (ids e_id (expenses db)) ->
      ~ In n (flat_map new_expense_id (fst (run rzero later db))))
  /\ (forall n, In n (ids i_id (income db)) ->
      ~ In n (flat_map new_income_id (fst (run rzero later db)))).
Proof.
  intros tr db. subst tr db.
  destruct (run_ok (Start :: cs) empty_store empty_store_ok)
    as (Hok & (_ & Oe & _ & Ie) & (_ & Oi & _ & Ii)).
  destruct (run_ok later _ Hok) as (_ & (_ & _ & Le & _) & (_ & _ & Li & _)).
  destruct Hok as [(_ & Se & Be) (_ & Si & Bi)].
  split; [split; now apply sorted_lt_nodup|].
  split; [now split|].
  split; [split; now apply sorted_lt_nodup|].
  split; [now split|].
  rewrite Forall_forall in *.
  split; intros n Hn Hlater.
  - specialize (Be n Hn). specialize (Le n Hlater). lia.
  - specialize (Bi n Hn). specialize (Li n Hlater). lia.
Qed.

(** C9: the write test of [init_db] removes every expense row of category
    "test", the rows a user added included, and keeps the other rows and
    the income table; it goes through whenever the table has room; and it
    uses up identifier 1 of a new file, so that the first expense added
    after the first start gets identifier 2. *)
Theorem init_db_write_test :
  (forall db db',
     init_db rzero db = Some db' ->
     rows (expenses db')
     = filter (fun r => negb (e_category r =? "test")%string)
         (rows (expenses db))
     /\ (forall r, In r (rows (expenses db)) -> e_category r = "test" ->
         ~ In r (rows (expenses db')))
     /\ income db' = income db)
  /\ (forall db, has_room e_id (expenses db) ->
      exists db', init_db rzero db = Some db')
  /\ (exists db0,
        init_db rzero empty_store = Some db0
        /\ forall date amount category subcategory note,
             fst (add_expense date amount category subcategory note db0) = Ok 2).
Proof.
  split; [|split].
  - intros db db' E. destruct (init_db_rows rzero db db' E) as (Hr & _ & Hi).
    split; [exact Hr|]. split; [|exact Hi].
    intros r _ Hc Hin. rewrite Hr in Hin. apply filter_In in Hin.
    destruct Hin as [_ Hin]. rewrite Hc in Hin. discriminate.
  - intros db Hroom. unfold init_db.
    destruct (sql_insert_room e_id
                (fun n => mkExpense n "2000-01-01" rzero "test" "" "")
                (expenses db) Hroom) as (n & E & _).
    rewrite E. eexists. reflexivity.
  - eexists. split; reflexivity.
Qed.

Lemma group_add_new (r : expense_row real) (gs : list (summary real)) :
  exists g, In g (group_add radd r gs) /\ s_category g = e_category r.
Proof.
  induction gs as [|g gs (g' & Hin & Hc)]; cbn [group_add].
  - eexists. split; [now left | reflexivity].
  - destruct (String.compare (e_category r) (s_category g)) eqn:E.
    + apply String.compare_eq_iff in E.
      eexists. split; [now left | now symmetry].
    + eexists. split; [now left | reflexivity].
    + exists g'. split; [now right | exact Hc].
Qed.

Lemma group_add_old (r : expense_row real) (gs : list (summary real))
    (g : summary real) :
  In g gs ->
  exists g', In g' (group_add radd r gs) /\ s_category g' = s_category g.
Proof.
  induction gs as [|h gs IH]; cbn [group_add]; intros Hin; [destruct Hin|].
  destruct (String.compare (e_category r) (s_category h)) eqn:E.
  - destruct Hin as [<-|Hin].
    + eexists. split; [now left | reflexivity].
    + exists g. split; [now right | reflexivity].
  - exists g. split; [now right | reflexivity].
  - destruct Hin as [<-|Hin].
    + exists h. split; [now left | reflexivity].
    + destruct (IH Hin) as (g' & Hin' & Hc).
      exists g'. split; [now right | exact Hc].
Qed.

(** Every row that is grouped has a group of its category. *)
Lemma group_by_category_covers (rs : list (expense_row real))
    (r : expense_row real) :
  In r rs ->
  exists g, In g (group_by_category radd rs) /\ s_category g = e_category r.
Proof.
  unfold group_by_category.
  assert (Old : forall rs gs g, In g gs ->
    exists g', In g' (fold_left (fun gs r => group_add radd r gs) rs gs)
               /\ s_category g' = s_category g).
  { clear. intros rs. induction rs as [|x rs IH]; intros gs g Hin; cbn [fold_left].
    - exists g. now split.
    - destruct (group_add_old x gs g Hin) as (g1 & H1 & C1).
      destruct (IH _ g1 H1) as (g2 & H2 & C2).
      exists g2. split; [exact H2 | congruence]. }
  generalize (@nil (summary real)).
  induction rs as [|x rs IH]; intros gs Hin; [destruct Hin|].
  cbn [fold_left]. destruct Hin as [->|Hin].
  - destruct (group_add_new r gs) as (g1 & H1 & C1).
    destruct (Old rs _ g1 H1) as (g2 & H2 & C2).
    exists g2. split; [exact H2 | congruence].
  - now apply IH.
Qed.

(** C10: [summarize] called with the empty string as category returns what
    it returns without a category, because the test [if category] is false
    for the empty string; no restriction to the rows of category "" is
    made: every expense row dated in the interval, of whatever category,
    has its group in the result. *)
Theorem summarize_empty_category (lo hi : string) db :
  summarize radd rleb lo hi (Some "") db = summarize radd rleb lo hi None db
  /\ forall r, In r (expenses_in lo hi db) ->
       exists g, In g (summarize radd rleb lo hi (Some "") db)
                 /\ s_category g = e_category r.
Proof.
  split; [reflexivity|].
  intros r Hin. unfold summarize. cbn [truthy String.eqb negb].
  rewrite (filter_ext _ _ (fun x => sql_between_in_interval lo hi (e_date x))).
  destruct (group_by_category_covers _ r Hin) as (g & Hg & Hc).
  exists g. split; [|exact Hc].
  apply (Permutation_in _ (Permutation_sym (order_by_perm (total_desc rleb) _))).
  exact Hg.
Qed.
End StoreTheorems.

(** * The results on the sample stores *)

(** The scenario of the specification. *)
Example january_balance :
  get_balance 0 Z.add Z.sub "2024-01-01" "2024-01-31" Sample.january
  = mkBalance 1000 70 930 "2024-01-01" "2024-01-31".
Proof. reflexivity. Qed.

Example january_summary :
  summarize Z.add Z.leb "2024-01-01" "2024-01-31" None Sample.january
  = [mkSummary "Food & Dining" 70 2].
Proof. reflexivity. Qed.

(** With the empty string as category the rows of the other categories are
    still summarized. *)
Example january_summary_empty_category :
  summarize Z.add Z.leb "2024-01-01" "2024-01-31" (Some "") Sample.january
  = [mkSummary "Food & Dining" 70 2].
Proof. reflexivity. Qed.

(** C1 as the specification words it fails: no expense has identifier 7, and
    an edit of it without fields answers that the expense is not found, not
    that there is nothing to update. *)
Lemma edit_without_fields_absent_id :
  ~ In 7 (ids e_id (expenses Sample.january))
  /\ edit_expense 7 None None None None None Sample.january
     = (Error "Expense with id 7 not found", Sample.january)
  /\ fst (edit_expense 7 None None None None None Sample.january)
     <> Error "No fields to update".
Proof.
  split; [|split].
  - vm_compute. intros [H|[H|[]]]; discriminate H.
  - reflexivity.
  - vm_compute. discriminate.
Qed.

Lemma edit_without_fields_witness :
  (In 2 (ids e_id (expenses Sample.january))
   /\ fst (edit_expense 2 None None None None None Sample.january) = no_op)
  /\ (~ In 7 (ids e_id (expenses Sample.january))
      /\ fits_int64 7 = true
      /\ fst (edit_expense 7 None None None None None Sample.january)
         = not_found "Expense" 7)
  /\ (~ In 9223372036854775808 (ids e_id (expenses Sample.january))
      /\ fits_int64 9223372036854775808 = false
      /\ fst (edit_expense 9223372036854775808 None None None None None
                Sample.january)
         = too_large "editing expense").
Proof.
  assert (H2 : In 2 (ids e_id (expenses Sample.january)))
    by (vm_compute; left; reflexivity).
  assert (H7 : ~ In 7 (ids e_id (expenses Sample.january)))
    by (vm_compute; intros [H|[H|[]]]; discriminate H).
  assert (Hb : ~ In 9223372036854775808 (ids e_id (expenses Sample.january)))
    by (vm_compute; intros [H|[H|[]]]; discriminate H).
  split; [split; [exact H2|]|split; (split; [assumption|split; [reflexivity|]])].
  - destruct (edit_without_fields Sample.january 2) as [(_ & H & _) _].
    exact (H H2).
  - destruct (edit_without_fields Sample.january 7) as [(_ & _ & H & _) _].
    exact (H H7 eq_refl).
  - destruct (edit_without_fields Sample.january 9223372036854775808)
      as [(_ & _ & _ & H) _].
    exact (H Hb eq_refl).
Defined.

(** C2 as the specification words it fails: no expense has identifier 2^63,
    and the delete of it does not answer that the expense is not found but
    that the statement failed, the identifier being too large to bind. *)
Lemma absent_id_too_large :
  ~ In 9223372036854775808 (ids e_id (expenses Sample.january))
  /\ delete_expense 9223372036854775808 Sample.january
     = (Error "Error deleting expense: Python int too large to convert to SQLite INTEGER",
        Sample.january)
  /\ fst (delete_expense 9223372036854775808 Sample.january)
     <> Error "Expense with id 9223372036854775808 not found".
Proof.
  split; [|split].
  - vm_compute. intros [H|[H|[]]]; discriminate H.
  - reflexivity.
  - vm_compute. discriminate.
Qed.

Lemma absent_id_not_found_witness :
  (~ In 7 (ids e_id (expenses Sample.january))
   /\ fits_int64 7 = true
   /\ delete_expense 7 Sample.january = (not_found "Expense" 7, Sample.january))
  /\ (~ In 9223372036854775808 (ids i_id (income Sample.january))
      /\ fits_int64 9223372036854775808 = false
      /\ edit_income 9223372036854775808 (Some "2024-01-08") None None None
           Sample.january
         = (too_large "editing income", Sample.january)).
Proof.
  assert (He : ~ In 7 (ids e_id (expenses Sample.january)))
    by (vm_compute; intros [H|[H|[]]]; discriminate H).
  assert (Hi : ~ In 9223372036854775808 (ids i_id (income Sample.january)))
    by (vm_compute; intros [H|[]]; discriminate H).
  split; (split; [assumption|split; [reflexivity|]]).
  - destruct (absent_id_not_found Sample.january 7) as [H _].
    exact (proj2 (proj1 (H He) eq_refl)).
  - destruct (absent_id_not_found Sample.january 9223372036854775808) as [_ H].
    exact (proj1 (proj2 (H Hi) eq_refl) _ _ _ _).
Defined.

(** Expense 3 has the note "lunch": an edit that supplies the amount and the
    empty string as note changes two fields. *)
Lemma edit_changes_supplied_fields_witness :
  In 3 (ids e_id (expenses Sample.january))
  /\ (0 < given (@None string) + given (Some 25) + given (@None string)
          + given (@None string) + given (Some ""))%nat
  /\ fst (edit_expense 3 None (Some 25) None None (Some "") Sample.january)
     = OkUpdated 3 2
  /\ nth_error
       (rows (expenses
          (snd (edit_expense 3 None (Some 25) None None (Some "") Sample.january))))
       1
     = Some (mkExpense 3 "2024-01-10" 25 "Food & Dining" "" "").
Proof.
  assert (H3 : In 3 (ids e_id (expenses Sample.january)))
    by (vm_compute; right; left; reflexivity).
  assert (Hp : (0 < given (@None string) + given (Some 25) + given (@None string)
                    + given (@None string) + given (Some ""))%nat)
    by (simpl; lia).
  split; [exact H3|]. split; [exact Hp|].
  destruct (edit_changes_supplied_fields Sample.january 3) as [H _].
  destruct (H None (Some 25) None None (Some "") H3 Hp) as (Hr & _ & _ & _ & Hk).
  split; [exact Hr|].
  exact (Hk 1%nat (mkExpense 3 "2024-01-10" 20 "Food & Dining" "" "lunch") eq_refl).
Defined.

Lemma list_expenses_range_order_witness :
  (forall r, In r (rows (expenses Sample.january)) ->
     in_interval "2025-01-01" "2025-12-31" (e_date r) = false)
  /\ list_expenses "2025-01-01" "2025-12-31" Sample.january = [].
Proof.
  assert (H : forall r, In r (rows (expenses Sample.january)) ->
                in_interval "2025-01-01" "2025-12-31" (e_date r) = false)
    by (intros r [<-|[<-|[]]]; reflexivity).
  split; [exact H|].
  destruct (list_expenses_range_order "2025-01-01" "2025-12-31" Sample.january)
    as (_ & _ & _ & E).
  exact (E H).
Defined.

Lemma add_then_list_witness :
  has_room e_id (expenses Sample.january)
  /\ in_interval "2024-01-01" "2024-01-31" "2024-01-20" = true
  /\ exists n,
       fst (add_expense "2024-01-20" 12 "Travel" None (Some "bus") Sample.january)
       = Ok n
       /\ In (mkExpense n "2024-01-20" 12 "Travel" "" "bus")
            (list_expenses "2024-01-01" "2024-01-31"
               (snd (add_expense "2024-01-20" 12 "Travel" None (Some "bus")
                       Sample.january))).
Proof.
  assert (Hr : has_room e_id (expenses Sample.january)) by reflexivity.
  assert (Hi : in_interval "2024-01-01" "2024-01-31" "2024-01-20" = true)
    by reflexivity.
  split; [exact Hr|]. split; [exact Hi|].
  exact (add_then_list "2024-01-20" 12 "Travel" None (Some "bus")
           "2024-01-01" "2024-01-31" Sample.january Hr Hi).
Defined.

Lemma get_balance_totals_witness :
  (forall x : Z, 0 + x = x)
  /\ total_expenses
       (get_balance 0 Z.add Z.sub "2024-01-01" "2024-01-31" Sample.january)
     = sum_of 0 Z.add
         (map e_amount (expenses_in "2024-01-01" "2024-01-31" Sample.january)).
Proof.
  split; [exact Z.add_0_l|].
  exact (proj1 (get_balance_totals 0 Z.add Z.sub Z.add_0_l
                  "2024-01-01" "2024-01-31" Sample.january)).
Defined.



(** Expense 2 is deleted and another expense added: the new one is not
    given identifier 2 again. *)
Lemma ids_unique_never_reused_witness :
  In 2 (ids e_id
          (expenses (snd (run 0 [Start; AddExpense "2024-03-01" 1 "Other" None None]
                            empty_store))))
  /\ ~ In 2 (flat_map new_expense_id
               (fst (run 0 [DeleteExpense 2;
                            AddExpense "2024-03-02" 1 "Other" None None]
                       (snd (run 0 [Start; AddExpense "2024-03-01" 1 "Other" None None]
                               empty_store))))).
Proof.
  assert (H : In 2 (ids e_id
         (expenses (snd (run 0 [Start; AddExpense "2024-03-01" 1 "Other" None None]
                           empty_store)))))
    by (vm_compute; left; reflexivity).
  split; [exact H|].
  destruct (ids_unique_never_reused 0
              [AddExpense "2024-03-01" 1 "Other" None None]
              [DeleteExpense 2; AddExpense "2024-03-02" 1 "Other" None None])
    as (_ & _ & _ & _ & N & _).
  exact (N 2 H).
Defined.

(** A restart removes the expense that the user filed under "test". *)
Lemma init_db_write_test_witness :
  has_room e_id (expenses Sample.with_test_row)
  /\ exists db',
       init_db 0 Sample.with_test_row = Some db'
       /\ rows (expenses db')
          = filter (fun r => negb (e_category r =? "test")%string)
              (rows (expenses Sample.with_test_row)).
Proof.
  assert (Hr : has_room e_id (expenses Sample.with_test_row)) by reflexivity.
  split; [exact Hr|].
  destruct (init_db_write_test 0) as (H1 & H2 & _).
  destruct (H2 Sample.with_test_row Hr) as [db' E].
  exists db'. split; [exact E|].
  exact (proj1 (H1 Sample.with_test_row db' E)).
Defined.

(** The expense of 2024-01-05 has the category "Food & Dining": it is
    summarized under the empty-string category argument as well. *)
Lemma summarize_empty_category_witness :
  In (mkExpense 2 "2024-01-05" 50 "Food & Dining" "" "")
     (expenses_in "2024-01-01" "2024-01-31" Sample.january)
  /\ exists g,
       In g (summarize Z.add Z.leb "2024-01-01" "2024-01-31" (Some "") Sample.january)
       /\ s_category g = "Food & Dining".
Proof.
  assert (H : In (mkExpense 2 "2024-01-05" 50 "Food & Dining" "" "")
                (expenses_in "2024-01-01" "2024-01-31" Sample.january))
    by (vm_compute; left; reflexivity).
  split; [exact H|].
  exact (proj2 (summarize_empty_category Z.add Z.leb
                  "2024-01-01" "2024-01-31" Sample.january) _ H).
Defined.

(** * Further properties of the tools *)

(** ** Deleting *)

Lemma compare_refl (s : string) : String.compare s s = Eq.
Proof.
  pose proof (String.compare_antisym s s) as H.
  destruct (String.compare s s); trivial; discriminate.
Qed.

Section DeleteFacts.
Context {row : Type}.
Variable id_of : row -> Z.

Lemma ids_delete_absent (i : Z) (t : table row) :
  ~ In i (ids id_of (sql_delete (fun r => id_of r =? i) t)).
Proof.
  unfold ids, sql_delete; simpl. intros H.
  apply in_map_iff in H. destruct H as (r & E & Hin).
  apply filter_In in Hin. destruct Hin as [_ Hin].
  rewrite E, Z.eqb_refl in Hin. discriminate.
Qed.

Lemma select_after_delete (i : Z) (t : table row) :
  select_by_id id_of i (sql_delete (fun r => id_of r =? i) t) = None.
Proof. apply select_by_id_none, ids_delete_absent. Qed.

Lemma delete_absent_same (i : Z) (t : table row) :
  ~ In i (ids id_of t) ->
  rows (sql_delete (fun r => id_of r =? i) t) = rows t.
Proof.
  unfold ids, sql_delete; simpl. intros H.
  induction (rows t) as [|r rs IH]; simpl in *; trivial.
  destruct (Z.eqb_spec (id_of r) i) as [E|E]; simpl.
  - exfalso. apply H. now left.
  - f_equal. apply IH. intros Hin. apply H. now right.
Qed.

(** With distinct identifiers, the delete of a present one takes away one
    row. *)
Lemma delete_one_row (i : Z) (rs : list row) :
  NoDup (map id_of rs) -> In i (map id_of rs) ->
  S (List.length (filter (fun r => negb (id_of r =? i)) rs)) = List.length rs.
Proof.
  induction rs as [|r rs IH]; simpl; intros Hnd Hin; [destruct Hin|].
  inversion Hnd as [|? ? Hr Hnd']; subst.
  destruct (Z.eqb_spec (id_of r) i) as [E|E]; simpl.
  - f_equal. subst i.
    assert (A : ~ In (id_of r) (ids id_of (mkTable rs 0))) by exact Hr.
    exact (f_equal (@List.length row) (delete_absent_same (id_of r) (mkTable rs 0) A)).
  - f_equal. apply IH; trivial. destruct Hin as [Hin|Hin]; [contradiction|exact Hin].
Qed.
End DeleteFacts.

Section DeleteTheorems.
Context {real : Type}.
Implicit Types (db : store real) (i : Z).

(** X1: the delete of an identifier that a row carries answers with the
    identifier and the success message, leaves the rows of other
    identifiers in their order, the counter and the other table as they
    were, and no row of that identifier; as identifiers are distinct in
    the table, the table has one row less. *)
Theorem delete_removes_row db i :
  (In i (ids e_id (expenses db)) ->
   fst (delete_expense i db) = OkDeleted i "Expense deleted successfully"
   /\ rows (expenses (snd (delete_expense i db)))
      = filter (fun r => negb (e_id r =? i)) (rows (expenses db))
   /\ seq (expenses (snd (delete_expense i db))) = seq (expenses db)
   /\ income (snd (delete_expense i db)) = income db
   /\ ~ In i (ids e_id (expenses (snd (delete_expense i db))))
   /\ (NoDup (ids e_id (expenses db)) ->
       S (List.length (rows (expenses (snd (delete_expense i db)))))
       = List.length (rows (expenses db))))
  /\
  (In i (ids i_id (income db)) ->
   fst (delete_income i db) = OkDeleted i "Income deleted successfully"
   /\ rows (income (snd (delete_income i db)))
      = filter (fun r => negb (i_id r =? i)) (rows (income db))
   /\ seq (income (snd (delete_income i db))) = seq (income db)
   /\ expenses (snd (delete_income i db)) = expenses db
   /\ ~ In i (ids i_id (income (snd (delete_income i db))))
   /\ (NoDup (ids i_id (income db)) ->
       S (List.length (rows (income (snd (delete_income i db)))))
       = List.length (rows (income db)))).
Proof.
  split; intros Hin.
  - destruct (select_by_id_some e_id i (expenses db) Hin) as [r E].
    unfold delete_expense, fetch_by_id. rewrite E. cbn [fst snd expenses income].
    split; [reflexivity|]. split; [reflexivity|]. split; [reflexivity|].
    split; [reflexivity|]. split; [apply ids_delete_absent|].
    intros Hnd. now apply delete_one_row.
  - destruct (select_by_id_some i_id i (income db) Hin) as [r E].
    unfold delete_income, fetch_by_id. rewrite E. cbn [fst snd expenses income].
    split; [reflexivity|]. split; [reflexivity|]. split; [reflexivity|].
    split; [reflexivity|]. split; [apply ids_delete_absent|].
    intros Hnd. now apply delete_one_row.
Qed.

(** X2: after a delete of an identifier, whether it found a row or not, a
    second delete and any edit of the same identifier change nothing and
    answer with an error: that nothing is found when the identifier fits in
    64 bits, and that the statement failed when it does not. *)
Theorem delete_twice db i :
  (let db1 := snd (delete_expense i db) in
   (fits_int64 i = true ->
    delete_expense i db1 = (not_found "Expense" i, db1)
    /\ forall d a c s n,
         edit_expense i d a c s n db1 = (not_found "Expense" i, db1))
   /\ (fits_int64 i = false ->
       delete_expense i db1 = (too_large "deleting expense", db1)
       /\ forall d a c s n,
            edit_expense i d a c s n db1 = (too_large "editing expense", db1)))
  /\
  (let db1 := snd (delete_income i db) in
   (fits_int64 i = true ->
    delete_income i db1 = (not_found "Income" i, db1)
    /\ forall d a s n, edit_income i d a s n db1 = (not_found "Income" i, db1))
   /\ (fits_int64 i = false ->
       delete_income i db1 = (too_large "deleting income", db1)
       /\ forall d a s n,
            edit_income i d a s n db1 = (too_large "editing income", db1))).
Proof.
  split.
  - assert (E : select_by_id e_id i (expenses (snd (delete_expense i db))) = None).
    { unfold delete_expense, fetch_by_id.
      destruct (select_by_id e_id i (expenses db)) eqn:S; cbn [snd expenses].
      - apply select_after_delete.
      - now destruct (fits_int64 i). }
    cbv zeta. remember (snd (delete_expense i db)) as db1 eqn:D. clear D.
    pose proof (fetch_by_id_absent e_id i _ E) as Fd.
    split; intros F; rewrite F in Fd;
      (split; [unfold delete_expense; now rewrite Fd
              |intros; unfold edit_expense; now rewrite Fd]).
  - assert (E : select_by_id i_id i (income (snd (delete_income i db))) = None).
    { unfold delete_income, fetch_by_id.
      destruct (select_by_id i_id i (income db)) eqn:S; cbn [snd income].
      - apply select_after_delete.
      - now destruct (fits_int64 i). }
    cbv zeta. remember (snd (delete_income i db)) as db1 eqn:D. clear D.
    pose proof (fetch_by_id_absent i_id i _ E) as Fd.
    split; intros F; rewrite F in Fd;
      (split; [unfold delete_income; now rewrite Fd
              |intros; unfold edit_income; now rewrite Fd]).
Qed.
End DeleteTheorems.

(** ** ORDER BY and WHERE *)

Section OrderByFilter.
Context {A : Type}.
Variable before : A -> A -> bool.
Hypothesis before_total : forall x y, before x y = false -> before y x = true.
Hypothesis before_trans :
  forall x y z, before x y = true -> before y z = true -> before x z = true.

Let precedes (x y : A) : Prop := before x y = true.

Lemma order_by_strongly_sorted (l : list A) :
  StronglySorted precedes (order_by before l).
Proof.
  apply Sorted_StronglySorted.
  - intros x y z. apply before_trans.
  - apply order_by_sorted; unfold precedes; auto.
Qed.

Lemma place_first (x : A) (l : list A) :
  Forall (precedes x) l -> place before x l = x :: l.
Proof.
  destruct l as [|y l]; simpl; trivial.
  intros H. inversion H as [|? ? Hy _]; subst. unfold precedes in Hy. now rewrite Hy.
Qed.

Lemma filter_place (p : A -> bool) (x : A) (l : list A) :
  StronglySorted precedes l ->
  filter p (place before x l)
  = if p x then place before x (filter p l) else filter p l.
Proof.
  induction 1 as [|y l Hs IH Hy]; simpl.
  - now destruct (p x).
  - destruct (before x y) eqn:E; simpl.
    + destruct (p x) eqn:Px; trivial.
      destruct (p y) eqn:Py; simpl; [now rewrite E|].
      symmetry. apply place_first.
      rewrite Forall_forall in *. intros z Hz.
      apply filter_In in Hz. destruct Hz as [Hz _].
      exact (before_trans x y z E (Hy z Hz)).
    + rewrite IH. destruct (p y) eqn:Py; simpl.
      * destruct (p x); trivial. now rewrite E.
      * reflexivity.
Qed.

(** Sorting the rows that a condition keeps gives the sorted rows that the
    condition keeps. *)
Lemma filter_order_by (p : A -> bool) (l : list A) :
  filter p (order_by before l) = order_by before (filter p l).
Proof.
  induction l as [|x l IH]; simpl; trivial.
  rewrite filter_place by apply order_by_strongly_sorted.
  rewrite IH. now destruct (p x).
Qed.
End OrderByFilter.

Lemma filter_swap {A : Type} (f g : A -> bool) (l : list A) :
  filter f (filter g l) = filter g (filter f l).
Proof.
  induction l as [|x l IH]; simpl; trivial.
  destruct (f x) eqn:F, (g x) eqn:G; simpl; rewrite ?F, ?G, IH; reflexivity.
Qed.

Lemma date_id_desc_iff d1 n1 d2 n2 :
  date_id_desc d1 n1 d2 n2 = true <-> newest_first d1 n1 d2 n2.
Proof.
  split; [apply date_id_desc_true|].
  unfold date_id_desc, newest_first. rewrite <- leb_lex_leb. unfold String.leb.
  destruct (String.compare d1 d2) eqn:E; trivial.
  - intros [H|[_ H]]; [discriminate | now apply Z.leb_le].
  - intros [H|[H _]]; [discriminate|].
    subst d2. rewrite compare_refl in E. discriminate.
Qed.

Lemma date_id_desc_total d1 n1 d2 n2 :
  date_id_desc d1 n1 d2 n2 = false -> date_id_desc d2 n2 d1 n1 = true.
Proof. intros H. apply date_id_desc_iff. now apply date_id_desc_false. Qed.

Lemma date_id_desc_trans d1 n1 d2 n2 d3 n3 :
  date_id_desc d1 n1 d2 n2 = true -> date_id_desc d2 n2 d3 n3 = true ->
  date_id_desc d1 n1 d3 n3 = true.
Proof.
  rewrite !date_id_desc_iff. apply newest_first_trans.
Qed.

(** ** Listing income, and listing after a delete *)

Section ListingTheorems.
Context {real : Type}.
Implicit Types (db : store real).

Lemma list_income_perm (lo hi : string) db :
  Permutation (list_income lo hi db) (income_in lo hi db).
Proof.
  unfold list_income, income_in. rewrite order_by_perm.
  erewrite filter_ext; [reflexivity|].
  intros r. apply sql_between_in_interval.
Qed.

Lemma delete_expense_rows (i : Z) db :
  rows (expenses (snd (delete_expense i db)))
  = filter (fun r => negb (e_id r =? i)) (rows (expenses db)).
Proof.
  unfold delete_expense, fetch_by_id.
  destruct (select_by_id e_id i (expenses db)) eqn:E; cbn [snd expenses]; trivial.
  apply select_by_id_none in E.
  destruct (fits_int64 i); cbn [snd]; symmetry;
    exact (delete_absent_same e_id i (expenses db) E).
Qed.

Lemma delete_income_rows (i : Z) db :
  rows (income (snd (delete_income i db)))
  = filter (fun r => negb (i_id r =? i)) (rows (income db)).
Proof.
  unfold delete_income, fetch_by_id.
  destruct (select_by_id i_id i (income db)) eqn:E; cbn [snd income]; trivial.
  apply select_by_id_none in E.
  destruct (fits_int64 i); cbn [snd]; symmetry;
    exact (delete_absent_same i_id i (income db) E).
Qed.

(** X3: [list_income] returns exactly the income rows whose date lies in the
    closed interval under the lexicographic order of strings, sorted by
    date descending and then by identifier descending, and the empty list
    when no row matches. *)
Theorem list_income_range_order (lo hi : string) db :
  Permutation (list_income lo hi db) (income_in lo hi db)
  /\ (forall r, In r (list_income lo hi db) <->
        In r (rows (income db))
        /\ lex_leb lo (i_date r) = true /\ lex_leb (i_date r) hi = true)
  /\ StronglySorted income_newest_first (list_income lo hi db)
  /\ (income_in lo hi db = [] -> list_income lo hi db = []).
Proof.
  pose proof (list_income_perm lo hi db) as P.
  split; [exact P|]. split; [|split].
  - intros r. split.
    + intros H. apply (Permutation_in _ P) in H.
      apply filter_In in H. unfold in_interval in H.
      now rewrite andb_true_iff in H.
    + intros (H & H1 & H2). apply (Permutation_in _ (Permutation_sym P)).
      apply filter_In. unfold in_interval. now rewrite H1, H2.
  - apply Sorted_StronglySorted.
    + intros x y z. apply newest_first_trans.
    + unfold list_income. apply order_by_sorted.
      * intros x y. apply date_id_desc_true.
      * intros x y. apply date_id_desc_false.
  - intros E. rewrite E in P. apply Permutation_nil. now symmetry.
Qed.

(** X4: when the income table has room, [add_income] answers with the new
    identifier, and a [list_income] right after it, over any interval that
    contains the date, returns a row with that identifier and the supplied
    values, the note being the empty string when it was omitted. *)
Theorem add_income_then_list (date : string) (amount : real) (source : string)
    (note : option string) (lo hi : string) db :
  has_room i_id (income db) ->
  in_interval lo hi date = true ->
  exists n,
    fst (add_income date amount source note db) = Ok n
    /\ In (mkIncome n date amount source
             (match note with Some v => v | None => "" end))
          (list_income lo hi (snd (add_income date amount source note db))).
Proof.
  intros Hroom Hin.
  destruct (sql_insert_room i_id
              (fun n => mkIncome n date amount source (arg_default "" note))
              (income db) Hroom) as (n & E & _).
  exists n. unfold add_income. rewrite E. cbn [fst snd]. split; [reflexivity|].
  apply (Permutation_in _ (Permutation_sym (list_income_perm lo hi _))).
  apply filter_In. cbn [income rows i_date]. split; [|exact Hin].
  apply in_or_app. right. now left.
Qed.

(** X5: a listing made after a delete is the listing made before it without
    the rows of the deleted identifier, the other rows in the same order;
    this holds for expenses and for income, and whether the delete found a
    row or not. *)
Theorem list_after_delete (lo hi : string) (i : Z) db :
  list_expenses lo hi (snd (delete_expense i db))
  = filter (fun r => negb (e_id r =? i)) (list_expenses lo hi db)
  /\ list_income lo hi (snd (delete_income i db))
     = filter (fun r => negb (i_id r =? i)) (list_income lo hi db).
Proof.
  split.
  - unfold list_expenses. rewrite delete_expense_rows, filter_swap.
    symmetry. apply filter_order_by.
    + intros x y. apply date_id_desc_total.
    + intros x y z. apply date_id_desc_trans.
  - unfold list_income. rewrite delete_income_rows, filter_swap.
    symmetry. apply filter_order_by.
    + intros x y. apply date_id_desc_total.
    + intros x y z. apply date_id_desc_trans.
Qed.
End ListingTheorems.

(** ** Adding *)

Section AddFacts.
Context {row : Type}.
Variable id_of : row -> Z.

Lemma table_ok_largest (t : table row) :
  table_ok id_of t -> Z.max (seq t) (largest_rowid id_of (rows t)) = seq t.
Proof.
  intros (H0 & _ & Hb). unfold ids in Hb.
  induction (rows t) as [|r rs IH]; simpl in *; [lia|].
  inversion Hb; subst. specialize (IH ltac:(assumption)). lia.
Qed.

Lemma sql_insert_next (mk : Z -> row) (t : table row) :
  table_ok id_of t -> seq t < MAX_ROWID ->
  sql_insert id_of mk t
  = Some (seq t + 1, mkTable (rows t ++ [mk (seq t + 1)]) (seq t + 1)).
Proof.
  intros Hok Hlt. unfold sql_insert. rewrite (table_ok_largest t Hok).
  destruct (Z.leb_spec MAX_ROWID (seq t)); [lia | reflexivity].
Qed.

Lemma sql_insert_full (mk : Z -> row) (t : table row) :
  MAX_ROWID <= seq t -> sql_insert id_of mk t = None.
Proof.
  intros H. unfold sql_insert.
  destruct (Z.leb_spec MAX_ROWID (Z.max (seq t) (largest_rowid id_of (rows t))));
    [reflexivity | lia].
Qed.

Lemma select_after_update (i j : Z) (f : row -> row) (t : table row) :
  (forall r, id_of (f r) = id_of r) ->
  select_by_id id_of j (sql_update id_of i f t)
  = option_map (fun r => if id_of r =? i then f r else r) (select_by_id id_of j t).
Proof.
  intros Hf. unfold select_by_id, sql_update; simpl.
  induction (rows t) as [|r rs IH]; simpl; trivial.
  assert (E : id_of (if id_of r =? i then f r else r) = id_of r)
    by (destruct (id_of r =? i); [apply Hf | reflexivity]).
  rewrite E. destruct (id_of r =? j); [reflexivity | exact IH].
Qed.

Lemma sql_update_twice (i : Z) (f : row -> row) (t : table row) :
  (forall r, id_of (f r) = id_of r) -> (forall r, f (f r) = f r) ->
  sql_update id_of i f (sql_update id_of i f t) = sql_update id_of i f t.
Proof.
  intros Hid Hf. unfold sql_update; simpl. f_equal.
  rewrite map_map. apply map_ext. intros r.
  destruct (id_of r =? i) eqn:E; [|now rewrite E].
  now rewrite Hid, E, Hf.
Qed.
End AddFacts.

Section AddTheorems.
Context {real : Type}.
Variable rzero : real.
Implicit Types (db : store real).

(** X6: in a store that keeps the invariant of its tables, with the counter
    of the table below the largest rowid, [add_expense] (and [add_income])
    returns the counter plus one, appends the row with the supplied values
    after the rows there were, sets the counter to the new identifier,
    leaves the other table alone and keeps the invariant; so two
    additions in a row return two consecutive identifiers. *)
Theorem add_gives_next_id db :
  store_ok db ->
  (seq (expenses db) < MAX_ROWID ->
   forall date amount category subcategory note,
     let n := seq (expenses db) + 1 in
     let db' := snd (add_expense date amount category subcategory note db) in
     fst (add_expense date amount category subcategory note db) = Ok n
     /\ rows (expenses db')
        = (rows (expenses db)
           ++ [mkExpense n date amount category
                 (match subcategory with Some v => v | None => "" end)
                 (match note with Some v => v | None => "" end)])%list
     /\ seq (expenses db') = n
     /\ income db' = income db
     /\ store_ok db'
     /\ (n < MAX_ROWID ->
         forall date2 amount2 category2 subcategory2 note2,
           fst (add_expense date2 amount2 category2 subcategory2 note2 db')
           = Ok (n + 1)))
  /\
  (seq (income db) < MAX_ROWID ->
   forall date amount source note,
     let n := seq (income db) + 1 in
     let db' := snd (add_income date amount source note db) in
     fst (add_income date amount source note db) = Ok n
     /\ rows (income db')
        = (rows (income db)
           ++ [mkIncome n date amount source
                 (match note with Some v => v | None => "" end)])%list
     /\ seq (income db') = n
     /\ expenses db' = expenses db
     /\ store_ok db'
     /\ (n < MAX_ROWID ->
         forall date2 amount2 source2 note2,
           fst (add_income date2 amount2 source2 note2 db') = Ok (n + 1))).
Proof.
  intros [He Hi]. split; intros Hlt.
  - intros date amount category subcategory note n db'. subst n db'.
    assert (E : add_expense date amount category subcategory note db
                = (Ok (seq (expenses db) + 1),
                   mkStore
                     (mkTable (rows (expenses db)
                        ++ [mkExpense (seq (expenses db) + 1) date amount category
                              (arg_default "" subcategory) (arg_default "" note)])
                        (seq (expenses db) + 1))
                     (income db))).
    { unfold add_expense. now rewrite (sql_insert_next e_id _ (expenses db) He Hlt). }
    rewrite E. cbn [fst snd expenses income rows seq].
    assert (Hok : table_ok e_id
              (mkTable (rows (expenses db)
                 ++ [mkExpense (seq (expenses db) + 1) date amount category
                       (arg_default "" subcategory) (arg_default "" note)])
                 (seq (expenses db) + 1))).
    { exact (proj1 (table_ok_insert e_id
               (fun m => mkExpense m date amount category
                           (arg_default "" subcategory) (arg_default "" note))
               (expenses db) _ _ (fun _ => eq_refl) He
               (sql_insert_next e_id _ _ He Hlt))). }
    split; [reflexivity|]. split; [reflexivity|]. split; [reflexivity|].
    split; [reflexivity|]. split; [split; assumption|].
    intros Hlt2 date2 amount2 category2 subcategory2 note2.
    unfold add_expense. cbn [expenses].
    now rewrite (sql_insert_next e_id _ _ Hok Hlt2).
  - intros date amount source note n db'. subst n db'.
    assert (E : add_income date amount source note db
                = (Ok (seq (income db) + 1),
                   mkStore (expenses db)
                     (mkTable (rows (income db)
                        ++ [mkIncome (seq (income db) + 1) date amount source
                              (arg_default "" note)])
                        (seq (income db) + 1)))).
    { unfold add_income. now rewrite (sql_insert_next i_id _ (income db) Hi Hlt). }
    rewrite E. cbn [fst snd expenses income rows seq].
    assert (Hok : table_ok i_id
              (mkTable (rows (income db)
                 ++ [mkIncome (seq (income db) + 1) date amount source
                       (arg_default "" note)])
                 (seq (income db) + 1))).
    { exact (proj1 (table_ok_insert i_id
               (fun m => mkIncome m date amount source (arg_default "" note))
               (income db) _ _ (fun _ => eq_refl) Hi
               (sql_insert_next i_id _ _ Hi Hlt))). }
    split; [reflexivity|]. split; [reflexivity|]. split; [reflexivity|].
    split; [reflexivity|]. split; [split; assumption|].
    intros Hlt2 date2 amount2 source2 note2.
    unfold add_income. cbn [income].
    now rewrite (sql_insert_next i_id _ _ Hok Hlt2).
Qed.

(** X7: once the counter of a table has reached the largest rowid, the
    insert fails: [add_expense] and [add_income] answer with an error and
    leave the store as it was, and [init_db] raises. *)
Theorem add_when_full db :
  (MAX_ROWID <= seq (expenses db) ->
   (forall date amount category subcategory note,
      exists message,
        add_expense date amount category subcategory note db = (Error message, db))
   /\ init_db rzero db = None)
  /\
  (MAX_ROWID <= seq (income db) ->
   forall date amount source note,
     exists message, add_income date amount source note db = (Error message, db)).
Proof.
  split; intros H.
  - split.
    + intros. unfold add_expense. rewrite (sql_insert_full e_id _ _ H).
      eexists. reflexivity.
    + unfold init_db. now rewrite (sql_insert_full e_id _ _ H).
  - intros. unfold add_income. rewrite (sql_insert_full i_id _ _ H).
    eexists. reflexivity.
Qed.
End AddTheorems.

(** ** Editing twice, and the table a tool does not name *)

Section EditAgain.
Context {real : Type}.
Implicit Types (db : store real) (i : Z).

Lemma edited_twice {V : Type} (old : V) (arg : option V) :
  edited (edited old arg) arg = edited old arg.
Proof. now destruct arg. Qed.

Lemma expense_edited_twice d (a : option real) c s n (r : expense_row real) :
  expense_edited d a c s n (expense_edited d a c s n r)
  = expense_edited d a c s n r.
Proof. unfold expense_edited; simpl. now rewrite !edited_twice. Qed.

Lemma income_edited_twice d (a : option real) s n (r : income_row real) :
  income_edited d a s n (income_edited d a s n r) = income_edited d a s n r.
Proof. unfold income_edited; simpl. now rewrite !edited_twice. Qed.

(** X8: an edit made a second time with the same arguments gives the answer
    of the first and leaves the store the first left; this holds for every
    outcome of the first (not found, nothing to update, updated). *)
Theorem edit_twice db i :
  (forall d a c s n,
     edit_expense i d a c s n (snd (edit_expense i d a c s n db))
     = edit_expense i d a c s n db)
  /\
  (forall d a s n,
     edit_income i d a s n (snd (edit_income i d a s n db))
     = edit_income i d a s n db).
Proof.
  split.
  - intros d a c s n.
    destruct (select_by_id e_id i (expenses db)) as [r|] eqn:E.
    2: { unfold edit_expense, fetch_by_id. rewrite E.
         destruct (fits_int64 i); cbn [snd]; now rewrite E. }
    destruct (expense_updates d a c s n) as [|u us] eqn:U.
    { unfold edit_expense, fetch_by_id. rewrite E, U. cbn [snd]. now rewrite E. }
    assert (F : edit_expense i d a c s n db
                = (OkUpdated i (List.length (u :: us)),
                   mkStore (sql_update e_id i
                              (apply_updates set_expense (u :: us)) (expenses db))
                           (income db))).
    { unfold edit_expense, fetch_by_id. now rewrite E, U. }
    rewrite F. cbn [snd]. unfold edit_expense, fetch_by_id. cbn [expenses income].
    rewrite (select_after_update e_id i i _ (expenses db)
               (apply_updates_expense_id _)), E.
    cbn [option_map]. rewrite U. f_equal. f_equal.
    apply sql_update_twice.
    + apply apply_updates_expense_id.
    + intros x. rewrite <- U, !expense_updates_apply. apply expense_edited_twice.
  - intros d a s n.
    destruct (select_by_id i_id i (income db)) as [r|] eqn:E.
    2: { unfold edit_income, fetch_by_id. rewrite E.
         destruct (fits_int64 i); cbn [snd]; now rewrite E. }
    destruct (income_updates d a s n) as [|u us] eqn:U.
    { unfold edit_income, fetch_by_id. rewrite E, U. cbn [snd]. now rewrite E. }
    assert (F : edit_income i d a s n db
                = (OkUpdated i (List.length (u :: us)),
                   mkStore (expenses db)
                           (sql_update i_id i
                              (apply_updates set_income (u :: us)) (income db)))).
    { unfold edit_income, fetch_by_id. now rewrite E, U. }
    rewrite F. cbn [snd]. unfold edit_income, fetch_by_id. cbn [expenses income].
    rewrite (select_after_update i_id i i _ (income db)
               (apply_updates_income_id _)), E.
    cbn [option_map]. rewrite U. f_equal. f_equal.
    apply sql_update_twice.
    + apply apply_updates_income_id.
    + intros x. rewrite <- U, !income_updates_apply. apply income_edited_twice.
Qed.

(** X9: the three tools that write expenses never change the income table,
    and the three tools that write income never change the expense table,
    whatever their arguments and their outcome. *)
Theorem other_table_untouched db :
  (forall d a c s n, income (snd (add_expense d a c s n db)) = income db)
  /\ (forall i d a c s n, income (snd (edit_expense i d a c s n db)) = income db)
  /\ (forall i, income (snd (delete_expense i db)) = income db)
  /\ (forall d a s n, expenses (snd (add_income d a s n db)) = expenses db)
  /\ (forall i d a s n, expenses (snd (edit_income i d a s n db)) = expenses db)
  /\ (forall i, expenses (snd (delete_income i db)) = expenses db).
Proof.
  split; [|split; [|split; [|split; [|split]]]]; intros.
  - unfold add_expense. now destruct (sql_insert e_id _ (expenses db)) as [[? ?]|].
  - unfold edit_expense. destruct (fetch_by_id e_id i (expenses db)); trivial.
    now destruct (expense_updates d a c s n).
  - unfold delete_expense. now destruct (fetch_by_id e_id i (expenses db)).
  - unfold add_income. now destruct (sql_insert i_id _ (income db)) as [[? ?]|].
  - unfold edit_income. destruct (fetch_by_id i_id i (income db)); trivial.
    now destruct (income_updates d a s n).
  - unfold delete_income. now destruct (fetch_by_id i_id i (income db)).
Qed.
End EditAgain.

(** ** The groups of a summary *)

Lemma cat_lt_lex (a b : string) : cat_lt a b <-> lex_leb b a = false.
Proof.
  unfold cat_lt. rewrite <- leb_lex_leb. unfold String.leb.
  rewrite (String.compare_antisym a b).
  destruct (String.compare b a); simpl; split; trivial; discriminate.
Qed.

Lemma cat_lt_trans (a b c : string) : cat_lt a b -> cat_lt b c -> cat_lt a c.
Proof.
  rewrite !cat_lt_lex. intros H1 H2.
  destruct (lex_leb c a) eqn:E; trivial.
  apply lex_leb_total in H1.
  now rewrite (lex_leb_trans _ _ _ E H1) in H2.
Qed.

Lemma cat_lt_neq (a b : string) : cat_lt a b -> a <> b.
Proof. unfold cat_lt. intros H ->. rewrite compare_refl in H. discriminate. Qed.

Lemma compare_gt_lt (a b : string) : String.compare a b = Gt -> cat_lt b a.
Proof.
  unfold cat_lt. rewrite (String.compare_antisym b a). now intros ->.
Qed.

Section GroupFacts.
Context {real : Type}.
Variable radd : real -> real -> real.
Implicit Types (r : expense_row real) (g : summary real) (gs : list (summary real)).

Lemma group_by_category_snoc (rs : list (expense_row real)) r :
  group_by_category radd (rs ++ [r]) = group_add radd r (group_by_category radd rs).
Proof. unfold group_by_category. now rewrite fold_left_app. Qed.

Lemma group_add_cats r gs (c : string) :
  In c (map s_category (group_add radd r gs)) ->
  c = e_category r \/ In c (map s_category gs).
Proof.
  induction gs as [|g gs IH]; cbn [group_add].
  - simpl. intros [<-|[]]. now left.
  - destruct (String.compare (e_category r) (s_category g)); simpl.
    + tauto.
    + intros [<-|H]; tauto.
    + intros [<-|H]; [tauto|]. destruct (IH H); tauto.
Qed.

Lemma group_add_sorted r gs :
  StronglySorted cat_lt (map s_category gs) ->
  StronglySorted cat_lt (map s_category (group_add radd r gs)).
Proof.
  induction gs as [|g gs IH]; cbn [group_add]; intros H.
  - repeat constructor.
  - simpl in H. inversion H as [|? ? Hs Hall]; subst.
    destruct (String.compare (e_category r) (s_category g)) eqn:E; simpl.
    + now constructor.
    + constructor; [now constructor|].
      constructor; [exact E|].
      eapply Forall_impl; [|exact Hall].
      intros c Hc. exact (cat_lt_trans _ _ _ E Hc).
    + constructor; [now apply IH|].
      rewrite Forall_forall in *. intros c Hc.
      destruct (group_add_cats r gs c Hc) as [->|Hold].
      * now apply compare_gt_lt.
      * now apply Hall.
Qed.

(** A group after a row is added: an old group of another category, or the
    group of the row's category, either an old one with the amount added
    and one more row, or a new one of that row alone. *)
Lemma group_add_inv r gs g' :
  StronglySorted cat_lt (map s_category gs) ->
  In g' (group_add radd r gs) ->
  (s_category g' <> e_category r /\ In g' gs)
  \/ (s_category g' = e_category r
      /\ ((exists g, In g gs /\ s_category g = e_category r
             /\ s_total_amount g' = radd (s_total_amount g) (e_amount r)
             /\ s_count g' = S (s_count g))
          \/ (~ In (e_category r) (map s_category gs)
              /\ s_total_amount g' = e_amount r /\ s_count g' = 1%nat))).
Proof.
  induction gs as [|g gs IH]; cbn [group_add]; intros Hs Hin.
  - destruct Hin as [<-|[]]. right. split; [reflexivity|]. right. simpl. tauto.
  - simpl in Hs. inversion Hs as [|? ? Hs' Hall]; subst.
    rewrite Forall_forall in Hall.
    destruct (String.compare (e_category r) (s_category g)) eqn:E.
    + apply String.compare_eq_iff in E. destruct Hin as [<-|Hin].
      * right. split; [now symmetry|]. left. exists g.
        split; [now left|]. split; [now symmetry|]. now split.
      * left. split; [|now right].
        rewrite E. intros C. symmetry in C. revert C. apply cat_lt_neq.
        apply Hall. now apply in_map.
    + destruct Hin as [<-|Hin].
      * right. split; [reflexivity|]. right. split; [|now split].
        simpl. intros [C|C].
        -- symmetry in C. revert C. now apply cat_lt_neq.
        -- revert C. intros C. apply Hall in C.
           exact (cat_lt_neq _ _ (cat_lt_trans _ _ _ E C) eq_refl).
      * left. split; [|exact Hin].
        intros C. destruct Hin as [<-|Hin].
        -- symmetry in C. revert C. now apply cat_lt_neq.
        -- assert (L : cat_lt (s_category g) (s_category g'))
             by (apply Hall; now apply in_map).
           rewrite C in L.
           exact (cat_lt_neq _ _ (cat_lt_trans _ _ _ E L) eq_refl).
    + apply compare_gt_lt in E. destruct Hin as [<-|Hin].
      * left. split; [now apply cat_lt_neq | now left].
      * destruct (IH Hs' Hin) as [[N O]|[C [(g0 & I0 & R0)|(N0 & R0)]]].
        -- left. split; [exact N | now right].
        -- right. split; [exact C|]. left. exists g0. split; [now right | exact R0].
        -- right. split; [exact C|]. right. split; [|exact R0].
           simpl. intros [D|D]; [|contradiction].
           revert D. now apply cat_lt_neq.
Qed.

Lemma of_category_snoc (c : string) (rs : list (expense_row real)) r :
  of_category c (rs ++ [r])
  = (of_category c rs ++ if (e_category r =? c)%string then [r] else [])%list.
Proof. unfold of_category. rewrite filter_app. simpl. now destruct (e_category r =? c)%string. Qed.

Lemma sql_sum_snoc (xs : list real) (a : real) :
  sql_sum radd (xs ++ [a])
  = Some (match sql_sum radd xs with Some t => radd t a | None => a end).
Proof.
  destruct xs as [|x xs]; simpl; trivial.
  now rewrite fold_left_app.
Qed.

Lemma of_category_none (c : string) (rs : list (expense_row real)) :
  ~ In c (map e_category rs) -> of_category c rs = [].
Proof.
  intros H. apply filter_none. intros r Hr.
  apply String.eqb_neq. intros E. apply H. rewrite <- E. now apply in_map.
Qed.
End GroupFacts.

Section GroupTheorems.
Context {real : Type}.
Variable radd : real -> real -> real.
Variable rleb : real -> real -> bool.
Implicit Types (db : store real) (g : summary real).

Lemma group_by_category_spec (rs : list (expense_row real)) :
  StronglySorted cat_lt (map s_category (group_by_category radd rs))
  /\ (forall c, In c (map s_category (group_by_category radd rs))
                <-> In c (map e_category rs))
  /\ (forall g, In g (group_by_category radd rs) ->
        sql_sum radd (map e_amount (of_category (s_category g) rs))
        = Some (s_total_amount g)
        /\ s_count g = List.length (of_category (s_category g) rs)).
Proof.
  induction rs as [|r rs (Hs & Hc & Hg)] using rev_ind.
  - split; [constructor|]. split; [tauto|]. intros g [].
  - rewrite group_by_category_snoc.
    split; [now apply group_add_sorted|]. split.
    + intros c. rewrite map_app, in_app_iff. simpl. split.
      * intros H. destruct (group_add_cats radd r _ c H) as [->|H'];
          [tauto | left; now apply Hc].
      * intros [H|[<-|[]]].
        -- apply Hc in H. apply in_map_iff in H. destruct H as (g & <- & Hin).
           destruct (group_add_old radd r _ g Hin) as (g' & Hin' & <-).
           now apply in_map.
        -- destruct (group_add_new radd r (group_by_category radd rs))
             as (g' & Hin' & <-).
           now apply in_map.
    + intros g' Hin. rewrite of_category_snoc, map_app, length_app.
      destruct (group_add_inv radd r _ g' Hs Hin)
        as [[N O]|[C [(g & I & Cg & T & K)|(N & T & K)]]].
      * destruct (Hg g' O) as [Sm L].
        assert (E : (e_category r =? s_category g')%string = false)
          by (apply String.eqb_neq; congruence).
        rewrite E. simpl. rewrite !app_nil_r. split; [exact Sm | lia].
      * destruct (Hg g I) as [Sm L]. rewrite Cg in Sm, L.
        rewrite C, String.eqb_refl. cbn [map List.length].
        rewrite sql_sum_snoc, Sm, T, K, L. split; [reflexivity | lia].
      * rewrite C, String.eqb_refl. cbn [map List.length].
        assert (Z0 : of_category (e_category r) rs = []).
        { apply of_category_none. intros H. apply N. now apply Hc. }
        rewrite Z0. simpl. rewrite T, K. now split.
Qed.

(** X10: without a category, [summarize] returns one row for each category
    that occurs among the expenses of the interval and no other row, no
    category twice; the row of a category carries the SUM of the amounts of
    its expenses, added in the order of the table, and their number, which
    is at least one. *)
Theorem summarize_groups (lo hi : string) db :
  NoDup (map s_category (summarize radd rleb lo hi None db))
  /\ (forall c, In c (map s_category (summarize radd rleb lo hi None db))
                <-> In c (map e_category (expenses_in lo hi db)))
  /\ (forall g, In g (summarize radd rleb lo hi None db) ->
        sql_sum radd
          (map e_amount (of_category (s_category g) (expenses_in lo hi db)))
        = Some (s_total_amount g)
        /\ s_count g
           = List.length (of_category (s_category g) (expenses_in lo hi db))
        /\ (1 <= s_count g)%nat).
Proof.
  unfold summarize.
  rewrite (filter_ext _ _ (fun x => sql_between_in_interval lo hi (e_date x))).
  fold (expenses_in lo hi db).
  destruct (group_by_category_spec (expenses_in lo hi db)) as (Hs & Hc & Hg).
  pose proof (order_by_perm (total_desc rleb)
                (group_by_category radd (expenses_in lo hi db))) as P.
  split; [|split].
  - apply (Permutation_NoDup (Permutation_sym (Permutation_map s_category P))).
    clear -Hs. induction Hs as [|c l Hs IH Hall]; constructor; trivial.
    intros Hin. rewrite Forall_forall in Hall.
    exact (cat_lt_neq _ _ (Hall c Hin) eq_refl).
  - intros c. rewrite <- Hc. split; apply Permutation_in.
    + exact (Permutation_map s_category P).
    + exact (Permutation_sym (Permutation_map s_category P)).
  - intros g Hin. apply (Permutation_in _ P) in Hin.
    destruct (Hg g Hin) as [Sm L]. split; [exact Sm|]. split; [exact L|].
    rewrite L.
    destruct (of_category (s_category g) (expenses_in lo hi db)); simpl;
      [discriminate Sm | lia].
Qed.

Lemma group_one_category (c : string) (rs : list (expense_row real))
    (t : real) (k : nat) :
  (forall r, In r rs -> e_category r = c) ->
  fold_left (fun gs r => group_add radd r gs) rs [mkSummary c t k]
  = [mkSummary c (fold_left radd (map e_amount rs) t) (k + List.length rs)].
Proof.
  revert t k. induction rs as [|r rs IH]; intros t k H.
  - simpl. now rewrite Nat.add_0_r.
  - pose proof (H r (or_introl eq_refl)) as Hr.
    cbn [fold_left map List.length group_add s_category s_total_amount s_count].
    rewrite Hr, compare_refl.
    rewrite IH by (intros x Hx; apply H; now right).
    do 2 f_equal. lia.
Qed.

(** X11: with a category that is not the empty string, [summarize] returns
    the empty list when no expense of the interval has that category, and
    otherwise the single row of that category, with the SUM of the amounts
    of these expenses and their number. *)
Theorem summarize_one_category (lo hi c : string) db :
  c <> "" ->
  summarize radd rleb lo hi (Some c) db
  = match of_category c (expenses_in lo hi db) with
    | [] => []
    | r :: rs =>
        [mkSummary c (fold_left radd (map e_amount rs) (e_amount r))
           (S (List.length rs))]
    end.
Proof.
  intros Hc. unfold summarize, truthy.
  apply String.eqb_neq in Hc. rewrite Hc. cbn [negb].
  assert (F : filter (fun r => sql_between lo hi (e_date r) && (e_category r =? c)%string)
                (rows (expenses db))
              = of_category c (expenses_in lo hi db)).
  { unfold of_category, expenses_in.
    induction (rows (expenses db)) as [|x l IH]; simpl; trivial.
    rewrite sql_between_in_interval.
    destruct (in_interval lo hi (e_date x)); simpl; [|exact IH].
    destruct (e_category x =? c)%string; now rewrite IH. }
  rewrite F.
  assert (A : forall r, In r (of_category c (expenses_in lo hi db)) -> e_category r = c).
  { intros r Hr. apply filter_In in Hr. now apply String.eqb_eq. }
  destruct (of_category c (expenses_in lo hi db)) as [|r rs]; [reflexivity|].
  unfold group_by_category. cbn [fold_left group_add].
  rewrite (A r (or_introl eq_refl)).
  rewrite group_one_category by (intros x Hx; apply A; now right).
  reflexivity.
Qed.

(** X12: when the order on amounts is total, the rows that [summarize]
    returns, with or without a category, are sorted by total amount
    descending. *)
Theorem summarize_sorted (lo hi : string) (category : option string) db :
  (forall x y, rleb x y = false -> rleb y x = true) ->
  Sorted (fun g1 g2 => rleb (s_total_amount g2) (s_total_amount g1) = true)
    (summarize radd rleb lo hi category db).
Proof.
  intros Htotal. unfold summarize. apply order_by_sorted.
  - intros x y H. exact H.
  - intros x y H. unfold total_desc in *. now apply Htotal.
Qed.
End GroupTheorems.

(** ** Balance after an addition, restarts, and empty intervals *)

Lemma filter_all {A : Type} (f : A -> bool) (l : list A) :
  (forall x, In x l -> f x = true) -> filter f l = l.
Proof.
  induction l as [|x l IH]; simpl; intros H; trivial.
  rewrite (H x (or_introl eq_refl)). f_equal. apply IH.
  intros y Hy. apply H. now right.
Qed.

Section BalanceTheorems.
Context {real : Type}.
Variable rzero : real.
Variable radd rsub : real -> real -> real.
Variable rleb : real -> real -> bool.
Implicit Types (db : store real).

Lemma or_zero_sum_snoc (xs : list real) (a : real) :
  (forall x, radd rzero x = x) ->
  or_zero rzero (sql_sum radd (xs ++ [a]))
  = radd (or_zero rzero (sql_sum radd xs)) a.
Proof.
  intros H0. rewrite sql_sum_snoc.
  destruct (sql_sum radd xs); simpl; [reflexivity | now rewrite H0].
Qed.

(** X13: with a zero that is neutral on the left, an expense added with a
    date in the interval raises the expense total of [get_balance] by its
    amount and leaves the income total, an income added with such a date
    raises the income total by its amount and leaves the expense total, and
    a row added with a date outside the interval leaves the balance as it
    was. *)
Theorem balance_after_add (lo hi : string) db :
  (forall x, radd rzero x = x) ->
  (has_room e_id (expenses db) ->
   forall date amount category subcategory note,
     let b := get_balance rzero radd rsub lo hi db in
     let b' := get_balance rzero radd rsub lo hi
                 (snd (add_expense date amount category subcategory note db)) in
     (in_interval lo hi date = true ->
      total_expenses b' = radd (total_expenses b) amount
      /\ total_income b' = total_income b
      /\ balance_of b' = rsub (total_income b) (radd (total_expenses b) amount))
     /\ (in_interval lo hi date = false -> b' = b))
  /\
  (has_room i_id (income db) ->
   forall date amount source note,
     let b := get_balance rzero radd rsub lo hi db in
     let b' := get_balance rzero radd rsub lo hi
                 (snd (add_income date amount source note db)) in
     (in_interval lo hi date = true ->
      total_income b' = radd (total_income b) amount
      /\ total_expenses b' = total_expenses b
      /\ balance_of b' = rsub (radd (total_income b) amount) (total_expenses b))
     /\ (in_interval lo hi date = false -> b' = b)).
Proof.
  intros H0. split; intros Hroom.
  - intros date amount category subcategory note b b'. subst b b'.
    destruct (sql_insert_room e_id
                (fun n => mkExpense n date amount category
                            (arg_default "" subcategory) (arg_default "" note))
                (expenses db) Hroom) as (n & E & _).
    unfold add_expense. rewrite E. cbn [snd]. unfold get_balance.
    cbn [expenses income rows total_expenses total_income balance_of].
    rewrite filter_app. cbn [filter e_date].
    rewrite sql_between_in_interval.
    split; intros Hd; rewrite Hd.
    + rewrite map_app. cbn [map e_amount].
      rewrite (or_zero_sum_snoc _ _ H0). now repeat split.
    + now rewrite app_nil_r.
  - intros date amount source note b b'. subst b b'.
    destruct (sql_insert_room i_id
                (fun n => mkIncome n date amount source (arg_default "" note))
                (income db) Hroom) as (n & E & _).
    unfold add_income. rewrite E. cbn [snd]. unfold get_balance.
    cbn [expenses income rows total_expenses total_income balance_of].
    rewrite filter_app. cbn [filter i_date].
    rewrite sql_between_in_interval.
    split; intros Hd; rewrite Hd.
    + rewrite map_app. cbn [map i_amount].
      rewrite (or_zero_sum_snoc _ _ H0). now repeat split.
    + now rewrite app_nil_r.
Qed.

Lemma empty_interval (lo hi d : string) :
  lex_leb lo hi = false -> sql_between lo hi d = false.
Proof.
  intros H. rewrite sql_between_in_interval. unfold in_interval.
  destruct (lex_leb lo d) eqn:E1; trivial.
  destruct (lex_leb d hi) eqn:E2; trivial.
  now rewrite (lex_leb_trans _ _ _ E1 E2) in H.
Qed.

(** X14: when the end of the interval comes before its start in the order
    of strings, no row is in it: the two listings and the summary are
    empty, not errors, and the balance has both totals at zero. *)
Theorem inverted_interval (lo hi : string) db :
  lex_leb lo hi = false ->
  list_expenses lo hi db = []
  /\ list_income lo hi db = []
  /\ (forall category, summarize radd rleb lo hi category db = [])
  /\ get_balance rzero radd rsub lo hi db
     = mkBalance rzero rzero (rsub rzero rzero) lo hi.
Proof.
  intros H.
  assert (Fe : forall (f : expense_row real -> bool),
            filter (fun r => sql_between lo hi (e_date r) && f r)
              (rows (expenses db)) = []).
  { intros f. apply filter_none. intros r _. now rewrite (empty_interval lo hi _ H). }
  assert (Fe' : filter (fun r => sql_between lo hi (e_date r)) (rows (expenses db)) = []).
  { apply filter_none. intros r _. now apply empty_interval. }
  assert (Fi : filter (fun r => sql_between lo hi (i_date r)) (rows (income db)) = []).
  { apply filter_none. intros r _. now apply empty_interval. }
  split; [|split; [|split]].
  - unfold list_expenses. now rewrite Fe'.
  - unfold list_income. now rewrite Fi.
  - intros [c|]; unfold summarize.
    + destruct (truthy c); [now rewrite Fe | now rewrite Fe'].
    + now rewrite Fe'.
  - unfold get_balance. now rewrite Fe', Fi.
Qed.

(** X15: in a store that keeps the invariant, with the expense counter
    below the largest rowid, a start goes through, uses up one identifier,
    keeps the invariant and the income table, and leaves the expense rows
    untouched when none has the category "test"; a second start right
    after it changes no row. *)
Theorem restart_uses_one_id db :
  store_ok db ->
  seq (expenses db) < MAX_ROWID ->
  exists db',
    init_db rzero db = Some db'
    /\ seq (expenses db') = seq (expenses db) + 1
    /\ income db' = income db
    /\ store_ok db'
    /\ ((forall r, In r (rows (expenses db)) -> e_category r <> "test") ->
        rows (expenses db') = rows (expenses db))
    /\ (forall db'', init_db rzero db' = Some db'' ->
        rows (expenses db'') = rows (expenses db')).
Proof using rzero.
  intros [He Hi] Hlt.
  exists (mkStore
            (mkTable (filter (fun r => negb (e_category r =? "test")%string)
                        (rows (expenses db)))
                     (seq (expenses db) + 1))
            (income db)).
  split.
  { unfold init_db. rewrite (sql_insert_next e_id _ (expenses db) He Hlt).
    unfold sql_delete. cbn [rows seq]. rewrite filter_app.
    cbn [filter e_category String.eqb Ascii.eqb Bool.eqb negb].
    now rewrite app_nil_r. }
  cbn [expenses income rows seq].
  split; [reflexivity|]. split; [reflexivity|]. split; [|split].
  - split; [|exact Hi]. destruct He as (H0 & Hs & Hb).
    unfold table_ok, ids. cbn [expenses rows seq].
    split; [lia|]. split; [now apply ids_filter_sorted|].
    apply Forall_forall. intros m Hm.
    apply ids_filter_incl in Hm.
    pose proof (proj1 (Forall_forall _ _) Hb m Hm) as B. cbv beta in B. lia.
  - intros Hno. apply filter_all. intros r Hr.
    apply negb_true_iff, String.eqb_neq. now apply Hno.
  - intros db'' E. destruct (init_db_rows rzero _ db'' E) as (Hr & _).
    rewrite Hr. cbn [expenses rows]. apply filter_all.
    intros r Hr'. apply filter_In in Hr'. exact (proj2 Hr').
Qed.

(** X16: every store that the program can leave in the file (a first start
    on no file, then any calls and restarts) keeps the invariant of its two
    tables: the rows stand in strictly increasing order of identifier, no
    identifier is beyond the counter of its table, and every identifier is
    positive. *)
Theorem reachable_store_ok (cs : list (call real)) :
  let db := snd (run rzero (Start :: cs) empty_store) in
  store_ok db
  /\ Forall (fun n => 0 < n) (ids e_id (expenses db))
  /\ Forall (fun n => 0 < n) (ids i_id (income db)).
Proof.
  intros db. subst db.
  destruct (run_ok rzero (Start :: cs) empty_store empty_store_ok)
    as (Hok & (_ & _ & Be & Ie) & (_ & _ & Bi & Ii)).
  split; [exact Hok|].
  split; apply Forall_forall; intros n Hn.
  - apply Ie in Hn. pose proof (proj1 (Forall_forall _ _) Be n Hn) as B.
    simpl in B. lia.
  - apply Ii in Hn. pose proof (proj1 (Forall_forall _ _) Bi n Hn) as B.
    simpl in B. lia.
Qed.
End BalanceTheorems.

(** ** Reading back an edit, and undoing an addition *)

Section RoundTrips.
Context {real : Type}.
Implicit Types (db : store real) (i : Z).

Lemma select_by_id_in {row : Type} (id_of : row -> Z) (i : Z) (t : table row)
    (r : row) :
  select_by_id id_of i t = Some r -> In r (rows t) /\ id_of r = i.
Proof.
  unfold select_by_id. intros H. apply find_some in H.
  destruct H as [H E]. split; [exact H | now apply Z.eqb_eq].
Qed.

(** X17: after an edit that supplies at least one field of an existing
    expense (or income), a listing over any interval that contains the date
    the row now has returns the row with its supplied fields changed and
    its other fields kept. *)
Theorem edit_then_list (lo hi : string) db i :
  (forall d a c s n r,
     select_by_id e_id i (expenses db) = Some r ->
     (0 < given d + given a + given c + given s + given n)%nat ->
     in_interval lo hi (edited (e_date r) d) = true ->
     In (expense_edited d a c s n r)
        (list_expenses lo hi (snd (edit_expense i d a c s n db))))
  /\
  (forall d a s n r,
     select_by_id i_id i (income db) = Some r ->
     (0 < given d + given a + given s + given n)%nat ->
     in_interval lo hi (edited (i_date r) d) = true ->
     In (income_edited d a s n r)
        (list_income lo hi (snd (edit_income i d a s n db)))).
Proof.
  split.
  - intros d a c s n r E Hpos Hin.
    destruct (select_by_id_in e_id i _ r E) as [Hr Hi].
    apply (Permutation_in _ (Permutation_sym (list_expenses_perm lo hi _))).
    apply filter_In. split; [|exact Hin].
    unfold edit_expense, fetch_by_id. rewrite E.
    pose proof (expense_updates_length d a c s n) as L.
    destruct (expense_updates d a c s n) as [|u us] eqn:U.
    { simpl in L. lia. }
    cbn [snd expenses sql_update rows]. apply in_map_iff.
    exists r. split; [|exact Hr].
    apply Z.eqb_eq in Hi. rewrite Hi, <- U. apply expense_updates_apply.
  - intros d a s n r E Hpos Hin.
    destruct (select_by_id_in i_id i _ r E) as [Hr Hi].
    apply (Permutation_in _ (Permutation_sym (list_income_perm lo hi _))).
    apply filter_In. split; [|exact Hin].
    unfold edit_income, fetch_by_id. rewrite E.
    pose proof (income_updates_length d a s n) as L.
    destruct (income_updates d a s n) as [|u us] eqn:U.
    { simpl in L. lia. }
    cbn [snd income sql_update rows]. apply in_map_iff.
    exists r. split; [|exact Hr].
    apply Z.eqb_eq in Hi. rewrite Hi, <- U. apply income_updates_apply.
Qed.

Lemma delete_last_added {row : Type} (id_of : row -> Z) (mk : Z -> row)
    (t : table row) (n : Z) :
  id_of (mk n) = n -> Forall (fun m => m < n) (ids id_of t) ->
  filter (fun r => negb (id_of r =? n)) (rows t ++ [mk n]) = rows t.
Proof.
  intros Hmk Hlt. rewrite filter_app. simpl. rewrite Hmk, Z.eqb_refl. simpl.
  rewrite app_nil_r. apply filter_all. intros r Hr.
  apply negb_true_iff, Z.eqb_neq.
  rewrite Forall_forall in Hlt. specialize (Hlt (id_of r) (in_map id_of _ _ Hr)). lia.
Qed.

(** X18: in a store that keeps the invariant, deleting the expense (or the
    income) that an addition has just returned gives back the rows there
    were before the addition, in their order; only the counter stays at
    the identifier that was used. *)
Theorem add_then_delete db :
  store_ok db ->
  (seq (expenses db) < MAX_ROWID ->
   forall date amount category subcategory note,
     let n := seq (expenses db) + 1 in
     let db1 := snd (add_expense date amount category subcategory note db) in
     fst (add_expense date amount category subcategory note db) = Ok n
     /\ delete_expense n db1
        = (OkDeleted n "Expense deleted successfully",
           mkStore (mkTable (rows (expenses db)) n) (income db)))
  /\
  (seq (income db) < MAX_ROWID ->
   forall date amount source note,
     let n := seq (income db) + 1 in
     let db1 := snd (add_income date amount source note db) in
     fst (add_income date amount source note db) = Ok n
     /\ delete_income n db1
        = (OkDeleted n "Income deleted successfully",
           mkStore (expenses db) (mkTable (rows (income db)) n))).
Proof.
  intros [He Hi]. split; intros Hlt.
  - intros date amount category subcategory note n db1. subst n db1.
    unfold add_expense. rewrite (sql_insert_next e_id _ (expenses db) He Hlt).
    cbn [fst snd]. split; [reflexivity|].
    unfold delete_expense, fetch_by_id. cbn [expenses income].
    destruct (select_by_id e_id (seq (expenses db) + 1) _) as [r|] eqn:E.
    + unfold sql_delete. cbn [rows seq]. do 3 f_equal.
      apply (delete_last_added e_id
               (fun m => mkExpense m date amount category
                           (arg_default "" subcategory) (arg_default "" note))).
      * reflexivity.
      * destruct He as (_ & _ & Hb). eapply Forall_impl; [|exact Hb].
        simpl; intros; lia.
    + apply select_by_id_none in E. exfalso. apply E.
      unfold ids. cbn [rows]. rewrite map_app. apply in_or_app. right. now left.
  - intros date amount source note n db1. subst n db1.
    unfold add_income. rewrite (sql_insert_next i_id _ (income db) Hi Hlt).
    cbn [fst snd]. split; [reflexivity|].
    unfold delete_income, fetch_by_id. cbn [expenses income].
    destruct (select_by_id i_id (seq (income db) + 1) _) as [r|] eqn:E.
    + unfold sql_delete. cbn [rows seq]. do 3 f_equal.
      apply (delete_last_added i_id
               (fun m => mkIncome m date amount source (arg_default "" note))).
      * reflexivity.
      * destruct Hi as (_ & _ & Hb). eapply Forall_impl; [|exact Hb].
        simpl; intros; lia.
    + apply select_by_id_none in E. exfalso. apply E.
      unfold ids. cbn [rows]. rewrite map_app. apply in_or_app. right. now left.
Qed.
End RoundTrips.

(** * The further results on the sample stores *)

Lemma january_ok : store_ok Sample.january.
Proof.
  split; (split; [vm_compute; discriminate|]);
    (split; [vm_compute; repeat constructor|]);
    vm_compute; repeat constructor; discriminate.
Qed.

Lemma with_test_row_ok : store_ok Sample.with_test_row.
Proof.
  split; (split; [vm_compute; discriminate|]);
    (split; [vm_compute; repeat constructor|]);
    vm_compute; repeat constructor; discriminate.
Qed.

Lemma delete_removes_row_witness :
  In 2 (ids e_id (expenses Sample.january))
  /\ NoDup (ids e_id (expenses Sample.january))
  /\ fst (delete_expense 2 Sample.january)
     = OkDeleted 2 "Expense deleted successfully"
  /\ S (List.length (rows (expenses (snd (delete_expense 2 Sample.january)))))
     = List.length (rows (expenses Sample.january)).
Proof.
  assert (H : In 2 (ids e_id (expenses Sample.january)))
    by (vm_compute; left; reflexivity).
  assert (N : NoDup (ids e_id (expenses Sample.january))).
  { vm_compute. repeat constructor.
    - intros [E|[]]. discriminate E.
    - intros []. }
  split; [exact H|]. split; [exact N|].
  destruct (delete_removes_row Sample.january 2) as [D _].
  destruct (D H) as (R & _ & _ & _ & _ & L).
  split; [exact R | exact (L N)].
Defined.

Lemma delete_twice_witness :
  fits_int64 2 = true
  /\ delete_expense 2 (snd (delete_expense 2 Sample.january))
     = (not_found "Expense" 2, snd (delete_expense 2 Sample.january))
  /\ fits_int64 9223372036854775808 = false
  /\ delete_expense 9223372036854775808
       (snd (delete_expense 9223372036854775808 Sample.january))
     = (too_large "deleting expense",
        snd (delete_expense 9223372036854775808 Sample.january)).
Proof.
  split; [reflexivity|]. split; [|split; [reflexivity|]].
  - destruct (delete_twice Sample.january 2) as [[H _] _].
    exact (proj1 (H eq_refl)).
  - destruct (delete_twice Sample.january 9223372036854775808) as [[_ H] _].
    exact (proj1 (H eq_refl)).
Defined.

Lemma list_income_range_order_witness :
  income_in "2025-01-01" "2025-12-31" Sample.january = []
  /\ list_income "2025-01-01" "2025-12-31" Sample.january = [].
Proof.
  assert (H : income_in "2025-01-01" "2025-12-31" Sample.january = [])
    by reflexivity.
  split; [exact H|].
  destruct (list_income_range_order "2025-01-01" "2025-12-31" Sample.january)
    as (_ & _ & _ & E).
  exact (E H).
Defined.

Lemma add_income_then_list_witness :
  has_room i_id (income Sample.january)
  /\ in_interval "2024-01-01" "2024-01-31" "2024-01-25" = true
  /\ exists n,
       fst (add_income "2024-01-25" 40 "Refund" None Sample.january) = Ok n
       /\ In (mkIncome n "2024-01-25" 40 "Refund" "")
            (list_income "2024-01-01" "2024-01-31"
               (snd (add_income "2024-01-25" 40 "Refund" None Sample.january))).
Proof.
  assert (Hr : has_room i_id (income Sample.january)) by reflexivity.
  assert (Hi : in_interval "2024-01-01" "2024-01-31" "2024-01-25" = true)
    by reflexivity.
  split; [exact Hr|]. split; [exact Hi|].
  exact (add_income_then_list "2024-01-25" 40 "Refund" None
           "2024-01-01" "2024-01-31" Sample.january Hr Hi).
Defined.

Lemma add_gives_next_id_witness :
  store_ok Sample.january
  /\ seq (expenses Sample.january) < MAX_ROWID
  /\ fst (add_expense "2024-01-20" 12 "Travel" None None Sample.january) = Ok 4.
Proof.
  assert (Hlt : seq (expenses Sample.january) < MAX_ROWID) by reflexivity.
  split; [exact january_ok|]. split; [exact Hlt|].
  destruct (add_gives_next_id Sample.january january_ok) as [A _].
  exact (proj1 (A Hlt "2024-01-20" 12 "Travel" None None)).
Defined.

Lemma add_when_full_witness :
  MAX_ROWID <= seq (expenses Sample.full)
  /\ (exists message,
        add_expense "2024-01-20" 12 "Travel" None None Sample.full
        = (Error message, Sample.full))
  /\ init_db 0 Sample.full = None.
Proof.
  assert (H : MAX_ROWID <= seq (expenses Sample.full))
    by (vm_compute; discriminate).
  split; [exact H|].
  destruct (add_when_full 0 Sample.full) as [A _].
  destruct (A H) as [A1 A2].
  split; [exact (A1 "2024-01-20" 12 "Travel" None None) | exact A2].
Defined.

(** The summary of the store with a "test" and a "Travel" expense has a row
    for "Travel", whose total is the SUM of the one expense of that
    category. *)
Lemma summarize_groups_witness :
  In (mkSummary "Travel" 7 1)
     (summarize Z.add Z.leb "2024-01-01" "2024-12-31" None Sample.with_test_row)
  /\ sql_sum Z.add
       (map e_amount
          (of_category "Travel"
             (expenses_in "2024-01-01" "2024-12-31" Sample.with_test_row)))
     = Some 7.
Proof.
  assert (H : In (mkSummary "Travel" 7 1)
                (summarize Z.add Z.leb "2024-01-01" "2024-12-31" None
                   Sample.with_test_row))
    by (vm_compute; left; reflexivity).
  split; [exact H|].
  destruct (summarize_groups Z.add Z.leb "2024-01-01" "2024-12-31"
              Sample.with_test_row) as (_ & _ & G).
  exact (proj1 (G _ H)).
Defined.

Lemma summarize_one_category_witness :
  "Food & Dining" <> ""
  /\ summarize Z.add Z.leb "2024-01-01" "2024-01-31" (Some "Food & Dining")
       Sample.january
     = match of_category "Food & Dining"
               (expenses_in "2024-01-01" "2024-01-31" Sample.january) with
       | [] => []
       | r :: rs =>
           [mkSummary "Food & Dining"
              (fold_left Z.add (map e_amount rs) (e_amount r))
              (S (List.length rs))]
       end.
Proof.
  assert (H : "Food & Dining" <> "") by discriminate.
  split; [exact H|].
  exact (summarize_one_category Z.add Z.leb "2024-01-01" "2024-01-31"
           "Food & Dining" Sample.january H).
Defined.

Lemma summarize_sorted_witness :
  (forall x y : Z, (x <=? y) = false -> (y <=? x) = true)
  /\ Sorted (fun g1 g2 => (s_total_amount g2 <=? s_total_amount g1) = true)
       (summarize Z.add Z.leb "2024-01-01" "2024-12-31" None
          Sample.with_test_row).
Proof.
  assert (H : forall x y : Z, (x <=? y) = false -> (y <=? x) = true)
    by (intros x y E; apply Z.leb_gt in E; apply Z.leb_le; lia).
  split; [exact H|].
  exact (summarize_sorted Z.add Z.leb "2024-01-01" "2024-12-31" None
           Sample.with_test_row H).
Defined.

Lemma balance_after_add_witness :
  (forall x : Z, 0 + x = x)
  /\ has_room e_id (expenses Sample.january)
  /\ in_interval "2024-01-01" "2024-01-31" "2024-01-20" = true
  /\ total_expenses
       (get_balance 0 Z.add Z.sub "2024-01-01" "2024-01-31"
          (snd (add_expense "2024-01-20" 12 "Travel" None None Sample.january)))
     = total_expenses
         (get_balance 0 Z.add Z.sub "2024-01-01" "2024-01-31" Sample.january)
       + 12.
Proof.
  assert (Hr : has_room e_id (expenses Sample.january)) by reflexivity.
  assert (Hi : in_interval "2024-01-01" "2024-01-31" "2024-01-20" = true)
    by reflexivity.
  split; [exact Z.add_0_l|]. split; [exact Hr|]. split; [exact Hi|].
  destruct (balance_after_add 0 Z.add Z.sub "2024-01-01" "2024-01-31"
              Sample.january Z.add_0_l) as [B _].
  destruct (B Hr "2024-01-20" 12 "Travel" None None) as [B1 _].
  exact (proj1 (B1 Hi)).
Defined.

Lemma inverted_interval_witness :
  lex_leb "2024-01-31" "2024-01-01" = false
  /\ list_expenses "2024-01-31" "2024-01-01" Sample.january = [].
Proof.
  assert (H : lex_leb "2024-01-31" "2024-01-01" = false) by reflexivity.
  split; [exact H|].
  exact (proj1 (inverted_interval 0 Z.add Z.sub Z.leb
                  "2024-01-31" "2024-01-01" Sample.january H)).
Defined.

Lemma restart_uses_one_id_witness :
  store_ok Sample.january
  /\ seq (expenses Sample.january) < MAX_ROWID
  /\ exists db',
       init_db 0 Sample.january = Some db'
       /\ seq (expenses db') = seq (expenses Sample.january) + 1.
Proof.
  assert (Hlt : seq (expenses Sample.january) < MAX_ROWID) by reflexivity.
  split; [exact january_ok|]. split; [exact Hlt|].
  destruct (restart_uses_one_id 0 Sample.january january_ok Hlt)
    as (db' & E & S1 & _).
  exists db'. split; [exact E | exact S1].
Defined.

(** Expense 3 moves to another date: it is listed under the new date. *)
Lemma edit_then_list_witness :
  select_by_id e_id 3 (expenses Sample.january)
  = Some (mkExpense 3 "2024-01-10" 20 "Food & Dining" "" "lunch")
  /\ (0 < given (Some "2024-02-03") + given (@None Z) + given (@None string)
          + given (@None string) + given (@None string))%nat
  /\ in_interval "2024-02-01" "2024-02-28" "2024-02-03" = true
  /\ In (mkExpense 3 "2024-02-03" 20 "Food & Dining" "" "lunch")
        (list_expenses "2024-02-01" "2024-02-28"
           (snd (edit_expense 3 (Some "2024-02-03") None None None None
                   Sample.january))).
Proof.
  assert (E : select_by_id e_id 3 (expenses Sample.january)
              = Some (mkExpense 3 "2024-01-10" 20 "Food & Dining" "" "lunch"))
    by reflexivity.
  assert (P : (0 < given (Some "2024-02-03") + given (@None Z)
                   + given (@None string) + given (@None string)
                   + given (@None string))%nat) by (simpl; lia).
  assert (I : in_interval "2024-02-01" "2024-02-28" "2024-02-03" = true)
    by reflexivity.
  split; [exact E|]. split; [exact P|]. split; [exact I|].
  exact (proj1 (edit_then_list "2024-02-01" "2024-02-28" Sample.january 3)
           (Some "2024-02-03") None None None None _ E P I).
Defined.

Lemma add_then_delete_witness :
  store_ok Sample.january
  /\ seq (expenses Sample.january) < MAX_ROWID
  /\ delete_expense 4
       (snd (add_expense "2024-01-20" 12 "Travel" None None Sample.january))
     = (OkDeleted 4 "Expense deleted successfully",
        mkStore (mkTable (rows (expenses Sample.january)) 4)
                (income Sample.january)).
Proof.
  assert (Hlt : seq (expenses Sample.january) < MAX_ROWID) by reflexivity.
  split; [exact january_ok|]. split; [exact Hlt|].
  destruct (add_then_delete Sample.january january_ok) as [A _].
  exact (proj2 (A Hlt "2024-01-20" 12 "Travel" None None)).
Defined.

(** * The order of the bind and of the read *)

Lemma fetch_by_id_bind_first {row : Type} (id_of : row -> Z) (i : Z)
    (t : table row) :
  rowids_fit id_of t -> fetch_by_id id_of i t = bind_then_select id_of i t.
Proof.
  unfold rowids_fit, fetch_by_id, bind_then_select. intros H.
  destruct (select_by_id id_of i t) as [r|] eqn:E; [|reflexivity].
  destruct (select_by_id_in id_of i t r E) as [Hr Hi].
  rewrite Forall_forall in H.
  rewrite <- Hi, (H (id_of r)); [reflexivity|].
  unfold ids. now apply in_map.
Qed.

Section RowidsFit.
Context {real : Type}.
Variable rzero : real.
Implicit Types (db : store real).

Lemma sql_insert_counter {row : Type} (id_of : row -> Z) (mk : Z -> row)
    (t t' : table row) (n : Z) :
  sql_insert id_of mk t = Some (n, t') -> seq t' <= MAX_ROWID.
Proof.
  intros E. apply sql_insert_some in E. destruct E as (-> & _ & _ & H). exact H.
Qed.

Lemma step_counters_fit (c : call real) db :
  counters_fit db -> counters_fit (snd (step rzero c db)).
Proof.
  intros [He Hi]. unfold counters_fit.
  destruct c as [|d a c s n|i d a c s n|i|d a s n|i d a s n|i]; cbn [step].
  - unfold init_db.
    destruct (sql_insert e_id _ (expenses db)) as [[m t]|] eqn:E;
      cbn [snd expenses income sql_delete seq]; [|now split].
    split; [exact (sql_insert_counter e_id _ _ _ _ E) | exact Hi].
  - unfold add_expense.
    destruct (sql_insert e_id _ (expenses db)) as [[m t]|] eqn:E;
      cbn [snd expenses income]; [|now split].
    split; [exact (sql_insert_counter e_id _ _ _ _ E) | exact Hi].
  - unfold edit_expense.
    destruct (fetch_by_id e_id i (expenses db)); cbn [snd]; try now split.
    destruct (expense_updates d a c s n); cbn [snd expenses income]; now split.
  - unfold delete_expense.
    destruct (fetch_by_id e_id i (expenses db)); cbn [snd expenses income];
      now split.
  - unfold add_income.
    destruct (sql_insert i_id _ (income db)) as [[m t]|] eqn:E;
      cbn [snd expenses income]; [|now split].
    split; [exact He | exact (sql_insert_counter i_id _ _ _ _ E)].
  - unfold edit_income.
    destruct (fetch_by_id i_id i (income db)); cbn [snd]; try now split.
    destruct (income_updates d a s n); cbn [snd expenses income]; now split.
  - unfold delete_income.
    destruct (fetch_by_id i_id i (income db)); cbn [snd expenses income];
      now split.
Qed.

Lemma run_counters_fit (cs : list (call real)) db :
  counters_fit db -> counters_fit (snd (run rzero cs db)).
Proof.
  revert db. induction cs as [|c cs IH]; intros db H; cbn [run]; [exact H|].
  pose proof (step_counters_fit c db H) as H1.
  destruct (step rzero c db) as [r db1]. cbn [snd] in H1.
  specialize (IH db1 H1).
  destruct (run rzero cs db1) as [tr db2]. exact IH.
Qed.

(** Every identifier that a store of the program holds is a positive 64-bit
    integer: on these stores the tools answer as with the parameter bound
    first. *)
Lemma reachable_rowids_fit (cs : list (call real)) :
  rowids_fit e_id (expenses (snd (run rzero (Start :: cs) empty_store)))
  /\ rowids_fit i_id (income (snd (run rzero (Start :: cs) empty_store))).
Proof.
  destruct (run_ok rzero (Start :: cs) empty_store empty_store_ok)
    as ([(_ & _ & Ue) (_ & _ & Ui)] & (_ & _ & Be & Ie) & (_ & _ & Bi & Ii)).
  assert (C : counters_fit (snd (run rzero (Start :: cs) (@empty_store real)))).
  { apply run_counters_fit. split; simpl; unfold MAX_ROWID; lia. }
  destruct C as [Ce Ci].
  unfold rowids_fit, fits_int64.
  split; apply Forall_forall; intros n Hn.
  - pose proof (proj1 (Forall_forall _ _) Ue n Hn) as U. cbv beta in U.
    apply Ie in Hn. pose proof (proj1 (Forall_forall _ _) Be n Hn) as B.
    simpl in B. unfold MAX_ROWID in Ce.
    apply andb_true_iff. split; apply Z.leb_le; lia.
  - pose proof (proj1 (Forall_forall _ _) Ui n Hn) as U. cbv beta in U.
    apply Ii in Hn. pose proof (proj1 (Forall_forall _ _) Bi n Hn) as B.
    simpl in B. unfold MAX_ROWID in Ci.
    apply andb_true_iff. split; apply Z.leb_le; lia.
Qed.
End RowidsFit.
